(** * contact_form/forms.py: the contact form and its message descriptor

    A shallow embedding of [ContactForm], [AkismetContactForm] and
    [ReCaptchaContactForm].  The form object is a record threaded through
    a state-and-exception monad; the framework the module is written
    against (form cleaning, template engine, sites, mail) is the
    environment: its pure parts are modelled after Django 1.11 and 2.0,
    the versions [setup.py] lists, which differ here in one validator of
    the text fields, and its services are fields of [Env].  The
    template loader and the sites framework are taken as total functions;
    the Akismet client and [send_mail] may fail. *)

From stdpp Require Import gmap strings list fin_maps.
From Stdlib Require Import NArith Ascii.

Local Open Scope N_scope.

(** ** Python text *)

Module PyStr.

(** A Python [str] is a sequence of code points. *)
Definition char : Type := N.
Definition str : Type := list N.

(** The text of an ASCII literal of the source. *)
Definition lit (s : string) : str := N_of_ascii <$> Stdlib.Strings.String.list_ascii_of_string s.

Definition LF : char := 10.
Definition CR : char := 13.
Definition QUOTE : char := 34.

(** The line boundaries of [str.splitlines]: LF, VT, FF, CR, FS, GS, RS,
    NEL, LINE SEPARATOR and PARAGRAPH SEPARATOR. *)
Definition is_linebreak (c : char) : bool :=
  (c =? 10) || (c =? 11) || (c =? 12) || (c =? 13)
  || (c =? 28) || (c =? 29) || (c =? 30)
  || (c =? 133) || (c =? 8232) || (c =? 8233).

(** [str.isspace] on one code point, as [str.strip] uses it. *)
Definition is_space (c : char) : bool :=
  ((9 <=? c) && (c <=? 13)) || ((28 <=? c) && (c <=? 32))
  || (c =? 133) || (c =? 160) || (c =? 5760)
  || ((8192 <=? c) && (c <=? 8202))
  || (c =? 8232) || (c =? 8233) || (c =? 8239) || (c =? 8287) || (c =? 12288).

(** [splitlines_from cur s]: the scan of [str.splitlines()] over the rest
    [s] of the text, [cur] being the current line read so far, last
    character first.  A boundary closes the line (CR LF counts once); a
    last line is kept only when it is not empty. *)
Fixpoint splitlines_from (cur s : str) : list str :=
  match s with
  | [] => match cur with [] => [] | _ => [rev cur] end
  | c :: rest =>
      if is_linebreak c then
        rev cur ::
          match rest with
          | c' :: rest' =>
              if (c =? CR) && (c' =? LF) then splitlines_from [] rest'
              else splitlines_from [] rest
          | [] => splitlines_from [] rest
          end
      else splitlines_from (c :: cur) rest
  end.

Definition splitlines (s : str) : list str := splitlines_from [] s.

(** [sep.join(parts)] for the empty separator. *)
Definition join_empty (parts : list str) : str := List.concat parts.

Fixpoint lstrip (s : str) : str :=
  match s with
  | c :: rest => if is_space c then lstrip rest else s
  | [] => []
  end.

(** [str.strip()] with no argument. *)
Definition strip (s : str) : str := rev (lstrip (rev (lstrip s))).

Fixpoint starts_with (p s : str) : bool :=
  match p, s with
  | [], _ => true
  | a :: p', b :: s' => (a =? b) && starts_with p' s'
  | _ :: _, [] => false
  end.

(** [needle in hay]. *)
Fixpoint contains (needle hay : str) : bool :=
  starts_with needle hay ||
  match hay with
  | [] => false
  | _ :: hay' => contains needle hay'
  end.

(** ['"%s" <%s>' % (a, b)] on two strings. *)
Definition format_from (a b : str) : str :=
  [QUOTE] ++ a ++ [QUOTE] ++ lit " <" ++ b ++ lit ">".

End PyStr.
Import PyStr.

(** ** Values handled by the form *)

(** The site the request is served for, as the sites framework returns it. *)
Record Site := { domain : str; site_name : str }.

(** The part of the request object the module reads. *)
Record Request := { META : gmap string str }.

(** The messages a [ValidationError] carries.  The framework's own are
    kept symbolic; [Message] holds a text given by the module. *)
Inductive error_message :=
| Required
| MaxLength (limit shown : nat)
| InvalidEmail
| NullCharacters
| Message (text : str).

Global Instance error_message_eq_dec : EqDecision error_message.
Proof. solve_decision. Defined.

Inductive exn :=
| TypeError (msg : string)
| ValueError (msg : string)
| KeyError (key : string)
| AttributeError (name : string)
| ValidationError (errors : list error_message)
| ServiceError (name : string).

(** A value of the template context: a cleaned field (Python's [None]
    is [None]) or the site object. *)
Inductive ctx_value :=
| CVal (v : option str)
| CSite (s : Site).

(** A value of the message dictionary. *)
Inductive part :=
| PStr (s : str)
| PList (l : list str).

(** The methods [get_message_dict] can find behind a message part. *)
Inductive method := MFromEmail | MMessage | MSubject.

(** What a class or instance attribute is bound to. *)
Inductive attr :=
| AStr (s : str)
| AList (l : list str)
| AMethod (m : method).

(** A template name: a plain string or a callable that yields one. *)
Inductive template_ref :=
| TemplateName (s : str)
| TemplateCallable (g : unit → str).

Record akismet_kwargs := {
  user_ip : str;
  user_agent : option str;
  comment_author : option str;
  comment_author_email : option str;
  comment_content : option str;
  comment_type : str;
}.

(** The calls made to services outside the process, oldest first. *)
Inductive event :=
| CommentCheck (kw : akismet_kwargs)
| SendMail (fail_silently : bool) (kwargs : gmap string part).

Inductive form_class := ContactForm | AkismetContactForm | ReCaptchaContactForm.

Global Instance form_class_eq_dec : EqDecision form_class.
Proof. solve_decision. Defined.

(** The form object: the attributes [BaseForm.__init__] and
    [ContactForm.__init__] set, and those cleaning sets later.
    [_errors = None] and [cleaned_data = None] stand for "not set yet". *)
Record Form := {
  cls : form_class;
  request : Request;
  instance_dict : gmap string attr;
  is_bound : bool;
  data : gmap string str;
  _errors : option (gmap string (list error_message));
  cleaned_data : option (gmap string (option str));
}.

Record state := { self : Form; trace : list event }.

Definition set_errors (e : gmap string (list error_message)) (f : Form) : Form :=
  {| cls := cls f; request := request f; instance_dict := instance_dict f;
     is_bound := is_bound f; data := data f;
     _errors := Some e; cleaned_data := cleaned_data f |}.

Definition set_cleaned_data (cd : gmap string (option str)) (f : Form) : Form :=
  {| cls := cls f; request := request f; instance_dict := instance_dict f;
     is_bound := is_bound f; data := data f;
     _errors := _errors f; cleaned_data := Some cd |}.

(** ** The monad of a method call: the state, and a result or an exception *)

Definition M (A : Type) : Type := state → (exn + A) * state.

Global Instance M_ret : MRet M := λ A x s, (inr x, s).

Global Instance M_bind : MBind M := λ A B k m s,
  match m s with
  | (inr x, s') => k x s'
  | (inl e, s') => (inl e, s')
  end.

Definition raise {A} (e : exn) : M A := λ s, (inl e, s).

Definition get_self : M Form := λ s, (inr (self s), s).

Definition modify_self (g : Form → Form) : M unit :=
  λ s, (inr tt, {| self := g (self s); trace := trace s |}).

Definition emit (ev : event) : M unit :=
  λ s, (inr tt, {| self := self s; trace := trace s ++ [ev] |}).

(** [try: m except ValidationError as e: handler e]. *)
Definition try_validation {A} (m : M A) (handler : list error_message → M A) : M A :=
  λ s, match m s with
       | (inl (ValidationError errs), s') => handler errs s'
       | r => r
       end.

(** ** The environment *)

(** The versions of the framework [setup.py] lists. *)
Inductive django := Django_1_11 | Django_2_0.

Record Settings := {
  DEFAULT_FROM_EMAIL : str;
  MANAGERS : list (str * str);
  AKISMET_API_KEY : option str;
  AKISMET_BLOG_URL : option str;
}.

(** The services the module calls: the email validator of the framework,
    the sites framework, the template loader, [django.core.mail.send_mail]
    (the keyword [fail_silently] and the message dictionary), the
    constructor and the check of the Akismet client, and the cleaning of
    the captcha field.  A service that fails names the exception it
    raises, which reaches the module as [ServiceError]. *)
Record Env := {
  framework : django;
  settings : Settings;
  validate_email : str → bool;
  get_current_site : Request → Site;
  render_to_string : str → gmap string ctx_value → Request → str;
  send_mail : bool → gmap string part → option string;
  Akismet : option str → option str → option string;
  comment_check : akismet_kwargs → string + bool;
  recaptcha_clean : gmap string str → list error_message + str;
}.

Section Forms.

Variable env : Env.

(** ** Field cleaning, after [django.forms.fields] *)

Inductive field :=
| CharField (max_length : option nat)
| EmailField (max_length : option nat)
| ReCaptchaField.

(** [MaxLengthValidator(limit)]. *)
Definition max_length_validator (limit : nat) (v : str) : list error_message :=
  if (limit <? length v)%nat then [MaxLength limit (length v)] else [].

Definition email_validator (v : str) : list error_message :=
  if validate_email env v then [] else [InvalidEmail].

Definition length_validators (max_length : option nat) : list (str → list error_message) :=
  match max_length with
  | Some n => [max_length_validator n]
  | None => []
  end.

(** ['\x00' in value]. *)
Definition has_null (v : str) : bool := existsb (N.eqb 0) v.

(** [ProhibitNullCharactersValidator()]. *)
Definition null_characters_validator (v : str) : list error_message :=
  if has_null v then [NullCharacters] else [].

(** What [CharField.__init__] appends after the length validators: since
    Django 2.0, the validator that prohibits null characters. *)
Definition version_validators : list (str → list error_message) :=
  match framework env with
  | Django_1_11 => []
  | Django_2_0 => [null_characters_validator]
  end.

(** [Field.validators]: the defaults of the field class, then those its
    constructor appends. *)
Definition validators (fld : field) : list (str → list error_message) :=
  match fld with
  | CharField ml => length_validators ml ++ version_validators
  | EmailField ml => email_validator :: length_validators ml ++ version_validators
  | ReCaptchaField => []
  end.

(** [CharField.to_python]: a missing or empty value is the empty string,
    any other is stripped. *)
Definition to_python (value : option str) : str :=
  match value with
  | None => []
  | Some s => strip s
  end.

(** [Field.clean] for a required text field: [to_python], then
    [validate] (required), then [run_validators], which gathers the
    messages of every validator. *)
Definition text_clean (fld : field) (value : option str) : list error_message + str :=
  let v := to_python value in
  match v with
  | [] => inl [Required]
  | _ =>
      match flat_map (λ check, check v) (validators fld) with
      | [] => inr v
      | errs => inl errs
      end
  end.

(** [field.clean(field.widget.value_from_datadict(data, ...))]. *)
Definition field_clean (name : string) (fld : field) (d : gmap string str)
  : list error_message + str :=
  match fld with
  | ReCaptchaField => recaptcha_clean env d
  | _ => text_clean fld (d !! name)
  end.

(** ** Class bodies *)

(** The fields declared by [ContactForm], in declaration order. *)
Definition base_fields : list (string * field) :=
  [ ("name", CharField (Some 100%nat));
    ("last_name", CharField (Some 100%nat));
    ("phone_number", CharField (Some 100%nat));
    ("email", EmailField (Some 200%nat));
    ("title", CharField (Some 200%nat));
    ("body", CharField None) ].

Definition fields (c : form_class) : list (string * field) :=
  match c with
  | ReCaptchaContactForm => base_fields ++ [("captcha", ReCaptchaField)]
  | _ => base_fields
  end.

(** The bindings the body of [ContactForm] makes for the names
    [get_message_dict] reads, in the order the body is executed:
    lines 33, 35, 51, 58 and 70. *)
Definition class_body : list (string * attr) :=
  [ ("from_email", AStr (DEFAULT_FROM_EMAIL (settings env)));
    ("recipient_list", AList (snd <$> MANAGERS (settings env)));
    ("from_email", AMethod MFromEmail);
    ("message", AMethod MMessage);
    ("subject", AMethod MSubject) ].

(** The class namespace: each binding of the body overwrites an earlier
    one of the same name. *)
Definition class_dict : gmap string attr :=
  foldl (λ ns b, <[b.1 := b.2]> ns) ∅ class_body.

Definition subject_template_name : template_ref :=
  TemplateName (lit "contact_form/contact_form_subject.txt").

Definition template_name : template_ref :=
  TemplateName (lit "contact_form/contact_form.txt").

Definition SPAM_MESSAGE : error_message :=
  Message (lit "Your message was classified as spam.").

(** [getattr(self, name)]: the instance dictionary, then the class (the
    two subclasses bind none of these names). *)
Definition getattr (name : string) : M attr :=
  f ← get_self;
  match instance_dict f !! name with
  | Some a => mret a
  | None =>
      match class_dict !! name with
      | Some a => mret a
      | None => raise (AttributeError name)
      end
  end.

(** [self.cleaned_data]. *)
Definition get_cleaned_data : M (gmap string (option str)) :=
  f ← get_self;
  match cleaned_data f with
  | Some cd => mret cd
  | None => raise (AttributeError "cleaned_data")
  end.

(** [d[key]] on a dictionary. *)
Definition getitem {A} (d : gmap string A) (key : string) : M A :=
  match d !! key with
  | Some v => mret v
  | None => raise (KeyError key)
  end.

(** ** [ContactForm.__init__] *)

(** [data], [files], [request] and [recipient_list]; what else the caller
    passes goes to [BaseForm.__init__] as it is and is left at the
    framework's defaults here.  The form is bound when [data] or [files]
    is given. *)
Definition __init__ (c : form_class) (data files : option (gmap string str))
    (request : option Request) (recipient_list : option (list str)) : exn + Form :=
  match request with
  | None => inl (TypeError "Keyword argument 'request' must be supplied")
  | Some r =>
      inr {| cls := c;
             request := r;
             instance_dict :=
               match recipient_list with
               | Some l => {[ "recipient_list" := AList l ]}
               | None => ∅
               end;
             is_bound := bool_decide (is_Some data ∨ is_Some files);
             data := default ∅ data;
             _errors := None;
             cleaned_data := None |}
  end.

(** ** [AkismetContactForm.clean_body] *)

(** [dict.get(key)]. *)
Definition dict_get (d : gmap string (option str)) (key : string) : option str :=
  default None (d !! key).

Definition clean_body : M (option str) :=
  cd ← get_cleaned_data;
  if bool_decide (is_Some (cd !! "body")) then
    match Akismet env (AKISMET_API_KEY (settings env)) (AKISMET_BLOG_URL (settings env)) with
    | Some e => raise (ServiceError e)
    | None =>
        f ← get_self;
        ip ← getitem (META (request f)) "REMOTE_ADDR";
        body ← getitem cd "body";
        let akismet_kwargs :=
          {| user_ip := ip;
             user_agent := META (request f) !! "HTTP_USER_AGENT";
             comment_author := dict_get cd "name";
             comment_author_email := dict_get cd "email";
             comment_content := body;
             comment_type := lit "contact-form" |} in
        emit (CommentCheck akismet_kwargs);;
        match comment_check env akismet_kwargs with
        | inl e => raise (ServiceError e)
        | inr true => raise (ValidationError [SPAM_MESSAGE])
        | inr false => getitem cd "body"
        end
    end
  else mret None.

(** ** Form cleaning, after [django.forms.forms.BaseForm] *)

(** [hasattr(self, 'clean_%s' % name)] and the method found. *)
Definition clean_hook (c : form_class) (name : string) : option (M (option str)) :=
  match c with
  | AkismetContactForm => if bool_decide (name = "body") then Some clean_body else None
  | _ => None
  end.

(** [self.cleaned_data[name] = value]. *)
Definition set_cleaned (name : string) (value : option str) : M unit :=
  cd ← get_cleaned_data;
  modify_self (set_cleaned_data (<[name := value]> cd)).

(** [BaseForm.add_error(name, error)]: the messages are appended to the
    list of the field, and the field leaves [cleaned_data]. *)
Definition add_error (name : string) (errs : list error_message) : M unit :=
  f ← get_self;
  let e := default ∅ (_errors f) in
  modify_self (set_errors (<[name := default [] (e !! name) ++ errs]> e));;
  cd ← get_cleaned_data;
  if bool_decide (is_Some (cd !! name))
  then modify_self (set_cleaned_data (delete name cd))
  else mret tt.

(** One round of the loop of [BaseForm._clean_fields]. *)
Definition _clean_field (name : string) (fld : field) : M unit :=
  try_validation
    (f ← get_self;
     value ← match field_clean name fld (data f) with
             | inr v => mret v
             | inl errs => raise (ValidationError errs)
             end;
     set_cleaned name (Some value);;
     match clean_hook (cls f) name with
     | Some hook => value' ← hook; set_cleaned name value'
     | None => mret tt
     end)
    (add_error name).

Fixpoint _clean_fields (fs : list (string * field)) : M unit :=
  match fs with
  | [] => mret tt
  | (name, fld) :: rest => _clean_field name fld;; _clean_fields rest
  end.

(** [BaseForm.full_clean]; [clean()] and [_post_clean()] are the
    framework's defaults and change nothing. *)
Definition full_clean : M unit :=
  modify_self (set_errors ∅);;
  f ← get_self;
  if is_bound f then
    modify_self (set_cleaned_data ∅);;
    _clean_fields (fields (cls f))
  else mret tt.

(** The property [BaseForm.errors]: cleaning runs on first access. *)
Definition errors : M (gmap string (list error_message)) :=
  f ← get_self;
  match _errors f with
  | Some e => mret e
  | None =>
      full_clean;;
      f' ← get_self;
      mret (default ∅ (_errors f'))
  end.

(** [BaseForm.is_valid]: [self.is_bound and not self.errors]. *)
Definition is_valid : M bool :=
  f ← get_self;
  if is_bound f then e ← errors; mret (bool_decide (e = ∅))
  else mret false.

(** ** The methods of [ContactForm] *)

(** [str(v)] as the [%s] conversion applies it to a cleaned value. *)
Definition to_str (v : option str) : str := default (lit "None") v.

Definition from_email : M str :=
  cd ← get_cleaned_data;
  name ← getitem cd "name";
  cd' ← get_cleaned_data;
  email ← getitem cd' "email";
  mret (format_from (to_str name) (to_str email)).

(** [t() if callable(t) else t] for a template name. *)
Definition resolve_template (t : template_ref) : str :=
  match t with
  | TemplateName s => s
  | TemplateCallable g => g tt
  end.

Definition get_context : M (gmap string ctx_value) :=
  ok ← is_valid;
  if negb ok then raise (ValueError "Cannot generate Context from invalid contact form")
  else
    cd ← get_cleaned_data;
    f ← get_self;
    mret (<["site" := CSite (get_current_site env (request f))]> (CVal <$> cd)).

Definition message : M str :=
  let template_name := resolve_template template_name in
  ctx ← get_context;
  f ← get_self;
  mret (render_to_string env template_name ctx (request f)).

Definition subject : M str :=
  let template_name := resolve_template subject_template_name in
  ctx ← get_context;
  f ← get_self;
  let subject := render_to_string env template_name ctx (request f) in
  mret (join_empty (splitlines subject)).

Definition call_method (m : method) : M str :=
  match m with
  | MFromEmail => from_email
  | MMessage => message
  | MSubject => subject
  end.

(** [attr() if callable(attr) else attr]. *)
Definition call_if_callable (a : attr) : M part :=
  match a with
  | AMethod m => s ← call_method m; mret (PStr s)
  | AStr s => mret (PStr s)
  | AList l => mret (PList l)
  end.

(** The loop of [get_message_dict] over the message parts. *)
Fixpoint message_parts (names : list string) (message_dict : gmap string part)
  : M (gmap string part) :=
  match names with
  | [] => mret message_dict
  | message_part :: rest =>
      a ← getattr message_part;
      v ← call_if_callable a;
      message_parts rest (<[message_part := v]> message_dict)
  end.

Definition get_message_dict : M (gmap string part) :=
  ok ← is_valid;
  if negb ok then raise (ValueError "Message cannot be sent from invalid contact form")
  else message_parts ["from_email"; "message"; "recipient_list"; "subject"] ∅.

(** [save]: the keyword arguments are evaluated, so the message dictionary
    is built, before [send_mail] is called. *)
Definition save (fail_silently : bool) : M unit :=
  message_dict ← get_message_dict;
  emit (SendMail fail_silently message_dict);;
  match send_mail env fail_silently message_dict with
  | Some e => raise (ServiceError e)
  | None => mret tt
  end.

End Forms.

(** * The vocabulary of the statements *)

Global Instance field_eq_dec : EqDecision field.
Proof. solve_decision. Defined.

(** What a method never touches: the class, the request, the instance
    dictionary, the submitted data and boundness. *)
Definition same_object (f f' : Form) : Prop :=
  cls f' = cls f ∧ request f' = request f ∧ instance_dict f' = instance_dict f
  ∧ is_bound f' = is_bound f ∧ data f' = data f.

Definition is_send_mail (ev : event) : bool :=
  match ev with
  | SendMail _ _ => true
  | CommentCheck _ => false
  end.

(** The calls to [send_mail] recorded in a trace. *)
Definition mails (t : list event) : list event := List.filter is_send_mail t.

(** The frame of validation: it keeps the object, never forgets that
    cleaning has run, and sends no mail. *)
Definition keeps (s s' : state) : Prop :=
  same_object (self s) (self s')
  ∧ (is_Some (_errors (self s)) → is_Some (_errors (self s')))
  ∧ mails (trace s') = mails (trace s).

(** [m] stays within that frame, however it ends. *)
Definition keeping {A} (m : M A) : Prop :=
  ∀ s r s', m s = (r, s') → keeps s s'.

(** The three operations that need a valid form. *)
Inductive operation :=
| RenderContext
| BuildMessage
| Dispatch (fail_silently : bool).

Definition perform (env : Env) (op : operation) : M unit :=
  match op with
  | RenderContext => get_context env;; mret tt
  | BuildMessage => get_message_dict env;; mret tt
  | Dispatch fail_silently => save env fail_silently
  end.

(** A caller making the calls one after another on the same form,
    catching what each raises. *)
Fixpoint perform_all (env : Env) (ops : list operation) (s : state)
  : list (exn + unit) * state :=
  match ops with
  | [] => ([], s)
  | op :: rest =>
      let '(r, s1) := perform env op s in
      let '(rs, s2) := perform_all env rest s1 in
      (r :: rs, s2)
  end.

(** The [ValueError] each operation raises on a form that is not valid. *)
Definition state_error (op : operation) : exn :=
  match op with
  | RenderContext => ValueError "Cannot generate Context from invalid contact form"
  | BuildMessage | Dispatch _ =>
      ValueError "Message cannot be sent from invalid contact form"
  end.

(** The characters [splitlines] keeps. *)
Definition not_linebreak (c : char) : bool := negb (is_linebreak c).

(** The object [f] once cleaning has left errors [e] and cleaned data [cd]
    on it. *)
Definition form_with (f : Form) (e : gmap string (list error_message))
    (cd : gmap string (option str)) : Form :=
  {| cls := cls f; request := request f; instance_dict := instance_dict f;
     is_bound := is_bound f; data := data f;
     _errors := Some e; cleaned_data := Some cd |}.

(** That object, with the calls [t] made so far. *)
Definition st (f : Form) (e : gmap string (list error_message))
    (cd : gmap string (option str)) (t : list event) : state :=
  {| self := form_with f e cd; trace := t |}.

(** The keyword arguments [clean_body] passes to the check, for a body
    cleaned to [v] on a form whose cleaned data so far are [cd]. *)
Definition check_kwargs (f : Form) (cd : gmap string (option str))
    (ip v : str) : akismet_kwargs :=
  {| user_ip := ip;
     user_agent := META (request f) !! "HTTP_USER_AGENT";
     comment_author := dict_get cd "name";
     comment_author_email := dict_get cd "email";
     comment_content := Some v;
     comment_type := lit "contact-form" |}.

(** How cleaning has dealt with a field: its messages are under its
    name and it has no cleaned value, or the other way round.  The body of
    an [AkismetContactForm] can clean and still end with the spam
    message. *)
Definition field_done (env : Env) (c : form_class) (d : gmap string str)
    (e : gmap string (list error_message)) (cd : gmap string (option str))
    (name : string) (fld : field) : Prop :=
  match field_clean env name fld d with
  | inl errs => e !! name = Some errs ∧ cd !! name = None
  | inr v =>
      (e !! name = None ∧ cd !! name = Some (Some v))
      ∨ (c = AkismetContactForm ∧ name = "body"
         ∧ e !! name = Some [SPAM_MESSAGE] ∧ cd !! name = None)
  end.

(** Cleaning has dealt with the fields [fs] and with no other name. *)
Definition fields_done (env : Env) (c : form_class) (d : gmap string str)
    (fs : list (string * field))
    (e : gmap string (list error_message)) (cd : gmap string (option str)) : Prop :=
  (∀ n, n ∉ fs.*1 → e !! n = None ∧ cd !! n = None)
  ∧ (∀ n fld, (n, fld) ∈ fs → field_done env c d e cd n fld).

(** The run of [clean_body] behind a body the field has cleaned to [v]. *)
Definition body_check (env : Env) (f : Form) (e : gmap string (list error_message))
    (cd : gmap string (option str)) (t : list event) (v : str)
  : (exn + unit) * state :=
  let cd1 := <["body" := Some v]> cd in
  match Akismet env (AKISMET_API_KEY (settings env)) (AKISMET_BLOG_URL (settings env)) with
  | Some ex => (inl (ServiceError ex), st f e cd1 t)
  | None =>
      match META (request f) !! "REMOTE_ADDR" with
      | None => (inl (KeyError "REMOTE_ADDR"), st f e cd1 t)
      | Some ip =>
          let kw := check_kwargs f cd ip v in
          let t1 := t ++ [CommentCheck kw] in
          match comment_check env kw with
          | inl ex => (inl (ServiceError ex), st f e cd1 t1)
          | inr true => (inr tt, st f (<["body" := [SPAM_MESSAGE]]> e) cd t1)
          | inr false => (inr tt, st f e cd1 t1)
          end
      end
  end.

(** The fields before the body, none of which has a [clean_<name>]
    method in any of the three classes. *)
Definition fields_before_body : list (string * field) :=
  [ ("name", CharField (Some 100%nat));
    ("last_name", CharField (Some 100%nat));
    ("phone_number", CharField (Some 100%nat));
    ("email", EmailField (Some 200%nat));
    ("title", CharField (Some 200%nat)) ].

(** [f] is the form of a submission that was constructed with these
    arguments and whose validation has succeeded. *)
Definition valid_submission (env : Env) (c : form_class)
    (data files : option (gmap string str)) (req : Request)
    (rl : option (list str)) (f : Form) : Prop :=
  ∃ f0 t s1,
    __init__ c data files (Some req) rl = inr f0
    ∧ is_valid env {| self := f0; trace := t |} = (inr true, s1)
    ∧ self s1 = f.

(** The recipient list of a form constructed with the override [rl]. *)
Definition recipients (env : Env) (rl : option (list str)) : list str :=
  match rl with
  | Some l => l
  | None => snd <$> MANAGERS (settings env)
  end.

(** The context of a form with cleaned data [cd]. *)
Definition context_of (env : Env) (f : Form) (cd : gmap string (option str))
  : gmap string ctx_value :=
  <["site" := CSite (get_current_site env (request f))]> (CVal <$> cd).

(** What the methods need of the state: validation has run and left no
    error, and the cleaned data are [cd]. *)
Definition ready (s : state) (cd : gmap string (option str)) : Prop :=
  is_bound (self s) = true ∧ _errors (self s) = Some ∅
  ∧ cleaned_data (self s) = Some cd.

(** The message dictionary of a form with cleaned data [cd], sender
    [sender] and recipient-list override [rl]. *)
Definition message_dict_of (env : Env) (f : Form) (cd : gmap string (option str))
    (sender : str) (rl : option (list str)) : gmap string part :=
  <["subject" :=
      PStr (join_empty (splitlines
        (render_to_string env (lit "contact_form/contact_form_subject.txt")
           (context_of env f cd) (request f))))]>
  (<["recipient_list" := PList (recipients env rl)]>
  (<["message" :=
      PStr (render_to_string env (lit "contact_form/contact_form.txt")
              (context_of env f cd) (request f))]>
  (<["from_email" := PStr sender]> ∅))).

(** The instance dictionary [__init__] leaves for the override [rl]. *)
Definition instance_dict_of (rl : option (list str)) : gmap string attr :=
  match rl with
  | Some l => {[ "recipient_list" := AList l ]}
  | None => ∅
  end.

(** * Concrete inputs *)

Definition example_settings : Settings :=
  {| DEFAULT_FROM_EMAIL := lit "webmaster@localhost";
     MANAGERS := [(lit "Admin", lit "admin@example.com")];
     AKISMET_API_KEY := Some (lit "0123456789ab");
     AKISMET_BLOG_URL := Some (lit "http://example.com/") |}.

(** A header value of the message that holds a line break. *)
Definition header_break (p : option part) : bool :=
  match p with
  | Some (PStr s) => existsb is_linebreak s
  | _ => false
  end.

(** A [send_mail] after the framework's with a mail server that refuses
    every message: the message is built before the guarded delivery, so a
    sender or subject with a line break raises [BadHeaderError] whatever
    [fail_silently] is; the failure of the delivery is raised unless
    [fail_silently]. *)
Definition example_send_mail (fail_silently : bool) (kwargs : gmap string part)
  : option string :=
  if header_break (kwargs !! "from_email") || header_break (kwargs !! "subject")
  then Some "BadHeaderError"
  else if fail_silently then None else Some "SMTPException".

(** A subject template that renders the title on a line of its own. *)
Definition example_render (template : str) (ctx : gmap string ctx_value)
    (req : Request) : str :=
  match ctx !! "title" with
  | Some (CVal (Some t)) => lit "[contact] " ++ t ++ [LF]
  | _ => []
  end.

Definition example_env (spam : bool) : Env :=
  {| framework := Django_1_11;
     settings := example_settings;
     validate_email := contains (lit "@");
     get_current_site := λ _, {| domain := lit "example.com"; site_name := lit "example" |};
     render_to_string := example_render;
     send_mail := example_send_mail;
     Akismet := λ _ _, None;
     comment_check := λ _, inr spam;
     recaptcha_clean := λ d, match d !! "g-recaptcha-response" with
                             | Some v => inr v
                             | None => inl [Required]
                             end |}.

Definition example_request : Request :=
  {| META := {[ "REMOTE_ADDR" := lit "192.0.2.7" ]} |}.

Definition posted (name email : str) : gmap string str :=
  list_to_map
    [ ("name", name); ("last_name", lit "Doe"); ("phone_number", lit "555 0100");
      ("email", email); ("title", lit "Hello"); ("body", lit "A question.") ].

(** The form [__init__] builds for submitted data [d], this request and
    no recipient list. *)
Definition fresh (c : form_class) (d : gmap string str) : state :=
  {| self := {| cls := c; request := example_request; instance_dict := ∅;
                is_bound := true; data := d;
                _errors := None; cleaned_data := None |};
     trace := [] |}.

Definition jane : gmap string str := posted (lit "Jane") (lit "jane@example.com").

Definition no_address : gmap string str := posted (lit "Jane") (lit "jane").

Definition two_lines : gmap string str :=
  posted (lit "Jane" ++ [LF] ++ lit "Doe") (lit "jane@example.com").

(** The state validation leaves. *)
Definition validated (env : Env) (s : state) : state := (is_valid env s).2.

(** A request without the address of the client. *)
Definition bare_request : Request := {| META := ∅ |}.

(** The form [__init__] builds for submitted data [d] and the request
    [req]. *)
Definition fresh_at (req : Request) (c : form_class) (d : gmap string str) : state :=
  {| self := {| cls := c; request := req; instance_dict := ∅;
                is_bound := true; data := d;
                _errors := None; cleaned_data := None |};
     trace := [] |}.

(** A submission whose name is 101 characters long between blanks. *)
Definition long_name : gmap string str :=
  posted (lit "  " ++ replicate 101 120 ++ lit " ") (lit "jane@example.com").

(** A submission with a captcha answer. *)
Definition with_captcha : gmap string str :=
  <["g-recaptcha-response" := lit "03AGdBq2"]> jane.

(** Jane's submission with a blank title. *)
Definition blank_title : gmap string str := <["title" := lit "   "]> jane.

(** An environment whose Akismet client cannot be built. *)
Definition no_client_env : Env :=
  {| framework := Django_1_11;
     settings := example_settings;
     validate_email := contains (lit "@");
     get_current_site := get_current_site (example_env false);
     render_to_string := example_render;
     send_mail := example_send_mail;
     Akismet := λ _ _, Some "ConfigurationError";
     comment_check := λ _, inr false;
     recaptcha_clean := recaptcha_clean (example_env false) |}.

(** ** Cleaning in closed form *)

(** The cleaning of a field gave a value, not messages. *)
Definition cleans (r : list error_message + str) : bool :=
  match r with
  | inr _ => true
  | inl _ => false
  end.

(** A cleaned text is there and within [k] characters. *)
Definition within (k : nat) (v : str) : bool :=
  negb (bool_decide (v = [])) && bool_decide (length v ≤ k)%nat.

(** The text passes what the version of the framework adds to the
    validators of a text field: from Django 2.0 on, it holds no null
    character. *)
Definition null_ok (env : Env) (v : str) : bool :=
  match framework env with
  | Django_1_11 => true
  | Django_2_0 => negb (has_null v)
  end.

(** The messages of the length ceiling [k] on a text. *)
Definition ceiling_messages (k : nat) (v : str) : list error_message :=
  if bool_decide (length v ≤ k)%nat then [] else [MaxLength k (length v)].

(** The messages of the version's validators on a text. *)
Definition version_messages (env : Env) (v : str) : list error_message :=
  if null_ok env v then [] else [NullCharacters].

(** The length ceiling a field is declared with. *)
Definition max_length_of (fld : field) : option nat :=
  match fld with
  | CharField ml | EmailField ml => ml
  | ReCaptchaField => None
  end.

(** The messages the validators of a field give on a text that is not
    empty, in their order: the email validator, the length ceiling, the
    validators of the version. *)
Definition field_messages (env : Env) (fld : field) (v : str) : list error_message :=
  match fld with
  | CharField ml =>
      match ml with Some k => ceiling_messages k v | None => [] end
      ++ version_messages env v
  | EmailField ml =>
      (if validate_email env v then [] else [InvalidEmail])
      ++ match ml with Some k => ceiling_messages k v | None => [] end
      ++ version_messages env v
  | ReCaptchaField => []
  end.

(** When the six fields of [ContactForm] all clean, for submitted data
    [d]. *)
Definition contact_fields_ok (env : Env) (d : gmap string str) : bool :=
  (within 100 (to_python (d !! "name")) && null_ok env (to_python (d !! "name")))
  && (within 100 (to_python (d !! "last_name"))
      && null_ok env (to_python (d !! "last_name")))
  && (within 100 (to_python (d !! "phone_number"))
      && null_ok env (to_python (d !! "phone_number")))
  && (within 200 (to_python (d !! "email"))
      && null_ok env (to_python (d !! "email"))
      && validate_email env (to_python (d !! "email")))
  && (within 200 (to_python (d !! "title")) && null_ok env (to_python (d !! "title")))
  && (negb (bool_decide (to_python (d !! "body") = []))
      && null_ok env (to_python (d !! "body"))).

(** The environment of the examples on Django 2.0. *)
Definition django2_env : Env :=
  {| framework := Django_2_0;
     settings := example_settings;
     validate_email := contains (lit "@");
     get_current_site := get_current_site (example_env false);
     render_to_string := example_render;
     send_mail := example_send_mail;
     Akismet := λ _ _, None;
     comment_check := λ _, inr false;
     recaptcha_clean := recaptcha_clean (example_env false) |}.

(** A submission whose name holds a null character. *)
Definition null_in_name : gmap string str :=
  posted (lit "Ja" ++ [0] ++ lit "ne") (lit "jane@example.com").

(** A submission whose email is an address of 201 characters. *)
Definition long_email : gmap string str :=
  posted (lit "Jane") (replicate 189 120 ++ lit "@example.com").

(** The cleaned value of a text field, [None] when it does not clean. *)
Definition cleaned_or_none (env : Env) (fld : field) (value : option str) : option str :=
  match text_clean env fld value with
  | inr v => Some v
  | inl _ => None
  end.

(** * Properties *)

Example splitlines_ex1 :
  splitlines (lit "a" ++ [CR; LF] ++ lit "b" ++ [LF]) = [lit "a"; lit "b"].
Proof. reflexivity. Qed.

Example splitlines_ex2 : splitlines [LF; LF; 120] = [[]; []; [120]].
Proof. reflexivity. Qed.

Example splitlines_ex3 : splitlines [LF; CR] = [[]; []].
Proof. reflexivity. Qed.

(** ** Reasoning about runs *)

Lemma bind_run {A B} (m : M A) (k : A → M B) s :
  (m ≫= k) s =
  match m s with
  | (inr x, s') => k x s'
  | (inl e, s') => (inl e, s')
  end.
Proof. reflexivity. Qed.

Lemma bind_inr {A B} (m : M A) (k : A → M B) s x s' :
  m s = (inr x, s') → (m ≫= k) s = k x s'.
Proof. intros H. rewrite bind_run, H. reflexivity. Qed.

Lemma bind_inl {A B} (m : M A) (k : A → M B) s e s' :
  m s = (inl e, s') → (m ≫= k) s = (inl e, s').
Proof. intros H. rewrite bind_run, H. reflexivity. Qed.

(** Run the binds at the head of the goal. *)
Ltac run := repeat first [rewrite bind_run | progress simpl].

Lemma same_object_refl f : same_object f f.
Proof. by repeat split. Qed.

Lemma same_object_trans f1 f2 f3 :
  same_object f1 f2 → same_object f2 f3 → same_object f1 f3.
Proof.
  intros (?&?&?&?&?) (?&?&?&?&?). repeat split; congruence.
Qed.

Lemma keeps_refl s : keeps s s.
Proof. split; [apply same_object_refl | by split]. Qed.

Lemma keeps_trans s1 s2 s3 : keeps s1 s2 → keeps s2 s3 → keeps s1 s3.
Proof.
  intros (Ho & He & Hm) (Ho' & He' & Hm').
  split; [by eapply same_object_trans | split; [by auto | congruence]].
Qed.

Lemma keeping_ret {A} (x : A) : keeping (mret x).
Proof. intros s r s' [= <- <-]. apply keeps_refl. Qed.

Lemma keeping_raise {A} e : keeping (@raise A e).
Proof. intros s r s' [= <- <-]. apply keeps_refl. Qed.

Lemma keeping_get_self : keeping get_self.
Proof. intros s r s' [= <- <-]. apply keeps_refl. Qed.

Lemma keeping_bind {A B} (m : M A) (k : A → M B) :
  keeping m → (∀ x, keeping (k x)) → keeping (m ≫= k).
Proof.
  intros Hm Hk s r s'. rewrite bind_run.
  destruct (m s) as [[e | x] s1] eqn:E.
  - intros [= <- <-]. by eapply Hm.
  - intros Hr. eapply keeps_trans; [by eapply Hm | by eapply Hk].
Qed.

Lemma keeping_try {A} (m : M A) h :
  keeping m → (∀ errs, keeping (h errs)) → keeping (try_validation m h).
Proof.
  intros Hm Hh s r s'. unfold try_validation.
  destruct (m s) as [[e | x] s1] eqn:E.
  - destruct e; try (intros [= <- <-]; by eapply Hm).
    intros Hr. eapply keeps_trans; [by eapply Hm | by eapply Hh].
  - intros [= <- <-]. by eapply Hm.
Qed.

Lemma keeping_set_errors e : keeping (modify_self (set_errors e)).
Proof.
  intros s r s' [= <- <-]. split; [by repeat split | split; [|done]].
  intros _. by eexists.
Qed.

Lemma keeping_set_cleaned_data cd : keeping (modify_self (set_cleaned_data cd)).
Proof. intros s r s' [= <- <-]. split; [by repeat split | by split]. Qed.

Lemma keeping_emit_check kw : keeping (emit (CommentCheck kw)).
Proof.
  intros s r s' [= <- <-]. split; [apply same_object_refl | split; [done|]].
  unfold mails. simpl. rewrite List.filter_app. simpl. by rewrite app_nil_r.
Qed.

Create HintDb keeping.

#[local] Hint Resolve keeping_ret keeping_raise keeping_get_self
  keeping_set_errors keeping_set_cleaned_data keeping_emit_check : keeping.

Ltac keeping_tac :=
  repeat first
    [ progress intros
    | solve [eauto with keeping]
    | apply keeping_bind
    | apply keeping_try
    | match goal with
      | |- keeping (match ?x with _ => _ end) => destruct x eqn:?
      | |- keeping (if ?x then _ else _) => destruct x eqn:?
      end ].

Section Validation.

Variable env : Env.

Lemma keeping_get_cleaned_data : keeping get_cleaned_data.
Proof. unfold get_cleaned_data. keeping_tac. Qed.

Lemma keeping_getitem {A} (d : gmap string A) key : keeping (getitem d key).
Proof. unfold getitem. keeping_tac. Qed.

#[local] Hint Resolve keeping_get_cleaned_data keeping_getitem : keeping.

Lemma keeping_set_cleaned name v : keeping (set_cleaned name v).
Proof. unfold set_cleaned. keeping_tac. Qed.

Lemma keeping_add_error name errs : keeping (add_error name errs).
Proof. unfold add_error. keeping_tac. Qed.

Lemma keeping_clean_body : keeping (clean_body env).
Proof. unfold clean_body. keeping_tac. Qed.

#[local] Hint Resolve keeping_set_cleaned keeping_add_error keeping_clean_body
  : keeping.

Lemma keeping_clean_field name fld : keeping (_clean_field env name fld).
Proof.
  unfold _clean_field. keeping_tac.
  unfold clean_hook in *. repeat case_match; simplify_eq; eauto with keeping.
Qed.

Lemma keeping_clean_fields fs : keeping (_clean_fields env fs).
Proof.
  induction fs as [| [name fld] fs IH]; simpl.
  - apply keeping_ret.
  - apply keeping_bind; [apply keeping_clean_field | done].
Qed.

#[local] Hint Resolve keeping_clean_fields : keeping.

Lemma keeping_full_clean : keeping (full_clean env).
Proof. unfold full_clean. keeping_tac. Qed.

Lemma full_clean_sets_errors s r s' :
  full_clean env s = (r, s') → is_Some (_errors (self s')).
Proof.
  unfold full_clean. rewrite bind_run. simpl. intros H.
  assert (keeping (f ← get_self;
                   if is_bound f
                   then modify_self (set_cleaned_data ∅);;
                        _clean_fields env (fields (cls f))
                   else mret tt)) as K.
  { keeping_tac. }
  apply K in H as (_ & He & _). apply He. simpl. by eexists.
Qed.

#[local] Hint Resolve keeping_full_clean : keeping.

Lemma keeping_errors : keeping (errors env).
Proof. unfold errors. keeping_tac. Qed.

#[local] Hint Resolve keeping_errors : keeping.


(** [is_valid] as one case analysis. *)
Lemma is_valid_run s :
  is_valid env s =
  if is_bound (self s) then
    match _errors (self s) with
    | Some e => (inr (bool_decide (e = ∅)), s)
    | None =>
        match full_clean env s with
        | (inr _, s1) => (inr (bool_decide (default ∅ (_errors (self s1)) = ∅)), s1)
        | (inl ex, s1) => (inl ex, s1)
        end
    end
  else (inr false, s).
Proof.
  unfold is_valid, errors. rewrite bind_run. simpl.
  destruct (is_bound (self s)); [|done].
  rewrite !bind_run. simpl.
  destruct (_errors (self s)); [done|].
  rewrite bind_run. by destruct (full_clean env s) as [[ex | []] s1].
Qed.

(** The answer of [is_valid] is the one every later call gives, and the
    later calls change nothing. *)
Lemma is_valid_again s b s' :
  is_valid env s = (inr b, s') → is_valid env s' = (inr b, s').
Proof.
  rewrite (is_valid_run s).
  destruct (is_bound (self s)) eqn:Hb.
  - destruct (_errors (self s)) as [e|] eqn:He.
    + intros [= <- <-]. by rewrite is_valid_run, Hb, He.
    + destruct (full_clean env s) as [[ex | u] s1] eqn:E; [done|].
      intros [= <- <-].
      pose proof (keeping_full_clean _ _ _ E) as ((_&_&_&Hb'&_) & _ & _).
      destruct (full_clean_sets_errors _ _ _ E) as [e1 He1].
      by rewrite is_valid_run, Hb', Hb, He1.
  - intros [= <- <-]. by rewrite is_valid_run, Hb.
Qed.

End Validation.

(** ** Calls on a form that is not valid *)

Section Invalid.

Variable env : Env.

Lemma get_context_invalid s s' :
  is_valid env s = (inr false, s') →
  get_context env s =
    (inl (ValueError "Cannot generate Context from invalid contact form"), s').
Proof. intros H. unfold get_context. by rewrite (bind_inr _ _ _ _ _ H). Qed.

Lemma get_message_dict_invalid s s' :
  is_valid env s = (inr false, s') →
  get_message_dict env s =
    (inl (ValueError "Message cannot be sent from invalid contact form"), s').
Proof. intros H. unfold get_message_dict. by rewrite (bind_inr _ _ _ _ _ H). Qed.

Lemma save_invalid fail_silently s s' :
  is_valid env s = (inr false, s') →
  save env fail_silently s =
    (inl (ValueError "Message cannot be sent from invalid contact form"), s').
Proof.
  intros H. unfold save.
  by rewrite (bind_inl _ _ _ _ _ (get_message_dict_invalid _ _ H)).
Qed.

Lemma perform_invalid op s s' :
  is_valid env s = (inr false, s') →
  perform env op s = (inl (state_error op), s').
Proof.
  intros H. destruct op; simpl.
  - by rewrite (bind_inl _ _ _ _ _ (get_context_invalid _ _ H)).
  - by rewrite (bind_inl _ _ _ _ _ (get_message_dict_invalid _ _ H)).
  - by apply save_invalid.
Qed.

(** C1, as the code has it.  On a form for which [is_valid] answers False,
    as it does for an unbound form and for an invalid submission, whether
    validation has run before or is run by the first call, [get_context],
    [get_message_dict] and [save], called any number of times and in any
    order, each raise their [ValueError]; the form is left as validation
    left it. *)
Theorem not_valid_state_error (s s' : state) (ops : list operation) :
  is_valid env s = (inr false, s') →
  perform_all env ops s =
    ((λ op, inl (state_error op)) <$> ops,
     match ops with [] => s | _ :: _ => s' end).
Proof.
  intros H. destruct ops as [| op ops]; [done|].
  simpl. rewrite (perform_invalid op _ _ H).
  apply is_valid_again in H.
  assert (perform_all env ops s' = ((λ op, inl (state_error op)) <$> ops, s')) as ->;
    [|done].
  induction ops as [| op' ops IH]; [done|].
  simpl. by rewrite (perform_invalid op' _ _ H), IH.
Qed.


End Invalid.

(** ** Line breaks *)

Lemma splitlines_from_concat (n : nat) :
  ∀ s cur, (length s ≤ n)%nat →
    List.concat (splitlines_from cur s) = rev cur ++ List.filter not_linebreak s.
Proof.
  induction n as [| n IH]; intros s cur Hlen.
  - destruct s; [|simpl in Hlen; lia].
    destruct cur; simpl; by rewrite ?app_nil_r.
  - destruct s as [| c rest]; simpl.
    { destruct cur; simpl; by rewrite ?app_nil_r. }
    simpl in Hlen. unfold not_linebreak at 1.
    destruct (is_linebreak c) eqn:Hc; simpl.
    + f_equal. destruct rest as [| c' rest'].
      * reflexivity.
      * destruct ((c =? CR) && (c' =? LF)) eqn:Hcrlf.
        -- apply andb_true_iff in Hcrlf as [_ Hlf%N.eqb_eq]. subst c'.
           rewrite (IH rest' []); [done | simpl in Hlen; lia].
        -- rewrite (IH (c' :: rest') []); [done | lia].
    + rewrite (IH rest (c :: cur)); [|lia]. simpl. by rewrite <- app_assoc.
Qed.

(** Joining the lines of a text drops exactly its line boundaries. *)
Lemma join_splitlines (s : str) :
  join_empty (splitlines s) = List.filter not_linebreak s.
Proof.
  unfold join_empty, splitlines.
  by rewrite (splitlines_from_concat (length s)).
Qed.

Lemma join_splitlines_no_linebreak (s : str) (c : char) :
  c ∈ join_empty (splitlines s) → is_linebreak c = false.
Proof.
  rewrite join_splitlines, list_elem_of_In, List.filter_In.
  intros [_ H]. by apply negb_true_iff in H.
Qed.

(** ** What cleaning leaves on the form *)

Section Cleaning.

Variable env : Env.

Lemma set_cleaned_st name v f e cd t :
  set_cleaned name v (st f e cd t) = (inr tt, st f e (<[name := v]> cd) t).
Proof. reflexivity. Qed.

Lemma add_error_st name errs f e cd t :
  add_error name errs (st f e cd t) =
    (inr tt, st f (<[name := default [] (e !! name) ++ errs]> e)
                  (if bool_decide (is_Some (cd !! name)) then delete name cd else cd) t).
Proof.
  unfold add_error, get_cleaned_data. run.
  by destruct (bool_decide (is_Some (cd !! name))).
Qed.

(** A field whose own cleaning fails: the hook is not reached. *)
Lemma clean_field_fails name fld f e cd t errs :
  field_clean env name fld (data f) = inl errs →
  cd !! name = None →
  _clean_field env name fld (st f e cd t) =
    (inr tt, st f (<[name := default [] (e !! name) ++ errs]> e) cd t).
Proof.
  intros Hc Hn. unfold _clean_field, try_validation. run. rewrite Hc. run.
  rewrite add_error_st, bool_decide_eq_false_2; [done|].
  rewrite Hn. by intros [? ?].
Qed.

(** A field without a [clean_<name>] method that cleans. *)
Lemma clean_field_passes name fld f e cd t v :
  clean_hook env (cls f) name = None →
  field_clean env name fld (data f) = inr v →
  _clean_field env name fld (st f e cd t) =
    (inr tt, st f e (<[name := Some v]> cd) t).
Proof.
  intros Hh Hc. unfold _clean_field, try_validation. run. rewrite Hc. run.
  by rewrite Hh.
Qed.

Lemma fields_done_nil c d : fields_done env c d [] ∅ ∅.
Proof.
  split; [intros n _; by rewrite !lookup_empty|].
  intros n fld H. by apply elem_of_nil in H.
Qed.

Lemma fields_done_snoc c d fs e cd n fld e1 cd1 :
  fields_done env c d fs e cd →
  n ∉ fs.*1 →
  (∀ m, m ≠ n → e1 !! m = e !! m ∧ cd1 !! m = cd !! m) →
  field_done env c d e1 cd1 n fld →
  fields_done env c d (fs ++ [(n, fld)]) e1 cd1.
Proof.
  intros [Hout Hin] Hn Hsame Hdone. split.
  - intros m Hm. rewrite fmap_app, elem_of_app in Hm. simpl in Hm.
    assert (m ≠ n) as Hne by (intros ->; apply Hm; right; by left).
    destruct (Hsame m Hne) as [-> ->]. apply Hout. tauto.
  - intros m fld' Hm. apply elem_of_app in Hm as [Hm | Hm].
    + assert (m ≠ n) as Hne.
      { intros ->. apply Hn. apply list_elem_of_fmap. by exists (n, fld'). }
      specialize (Hin m fld' Hm). unfold field_done in *.
      destruct (Hsame m Hne) as [-> ->]. done.
    + apply list_elem_of_singleton in Hm. by simplify_eq.
Qed.

(** The loop of [_clean_fields] over fields without a [clean_<name>]
    method never raises and makes no call. *)
Lemma clean_fields_plain fs2 :
  ∀ fs1 f e cd t,
    NoDup ((fs1 ++ fs2).*1) →
    (∀ n, n ∈ fs2.*1 → clean_hook env (cls f) n = None) →
    fields_done env (cls f) (data f) fs1 e cd →
    ∃ e' cd',
      _clean_fields env fs2 (st f e cd t) = (inr tt, st f e' cd' t)
      ∧ fields_done env (cls f) (data f) (fs1 ++ fs2) e' cd'.
Proof.
  induction fs2 as [| [n fld] fs2 IH]; intros fs1 f e cd t Hnd Hhook Hdone.
  - exists e, cd. by rewrite app_nil_r.
  - assert (n ∉ fs1.*1) as Hn.
    { rewrite fmap_app in Hnd. apply NoDup_app in Hnd as (_ & Hd & _).
      intros Hin. apply (Hd n Hin). by left. }
    destruct (proj1 Hdone n Hn) as [He Hcd].
    assert (clean_hook env (cls f) n = None) as Hh by (apply Hhook; by left).
    assert (∀ e1 cd1,
      (∀ m, m ≠ n → e1 !! m = e !! m ∧ cd1 !! m = cd !! m) →
      field_done env (cls f) (data f) e1 cd1 n fld →
      _clean_field env n fld (st f e cd t) = (inr tt, st f e1 cd1 t) →
      ∃ e' cd',
        _clean_fields env ((n, fld) :: fs2) (st f e cd t) = (inr tt, st f e' cd' t)
        ∧ fields_done env (cls f) (data f) (fs1 ++ (n, fld) :: fs2) e' cd') as Hstep.
    { intros e1 cd1 Hsame Hfd Hrun.
      destruct (IH (fs1 ++ [(n, fld)]) f e1 cd1 t) as (e' & cd' & Hrest & Hdone').
      - by rewrite <- app_assoc.
      - intros m Hm. apply Hhook. by right.
      - by eapply fields_done_snoc.
      - exists e', cd'. rewrite <- app_assoc in Hdone'. split; [|done].
        simpl. rewrite bind_run, Hrun. done. }
    destruct (field_clean env n fld (data f)) as [errs | v] eqn:Hc.
    + apply (Hstep (<[n := errs]> e) cd).
      * intros m Hm. by rewrite lookup_insert_ne.
      * unfold field_done. rewrite Hc, lookup_insert_eq. done.
      * rewrite (clean_field_fails _ _ _ _ _ _ _ Hc Hcd), He. done.
    + apply (Hstep e (<[n := Some v]> cd)).
      * intros m Hm. by rewrite lookup_insert_ne.
      * unfold field_done. rewrite Hc, lookup_insert_eq. by left.
      * by rewrite (clean_field_passes _ _ _ _ _ _ _ Hh Hc).
Qed.

Lemma dict_get_insert_ne (cd : gmap string (option str)) k k' v :
  k ≠ k' → dict_get (<[k := v]> cd) k' = dict_get cd k'.
Proof. intros H. unfold dict_get. by rewrite lookup_insert_ne. Qed.

Lemma clean_field_akismet_body f e cd t v :
  cls f = AkismetContactForm →
  text_clean env (CharField None) (data f !! "body") = inr v →
  e !! "body" = None → cd !! "body" = None →
  _clean_field env "body" (CharField None) (st f e cd t) = body_check env f e cd t v.
Proof.
  intros Hc Hv He Hcd. unfold _clean_field, try_validation, body_check. run.
  rewrite Hv. run. rewrite Hc. simpl.
  unfold clean_body, get_cleaned_data, getitem. run.
  rewrite (lookup_insert_eq cd "body" (Some v)). simpl.
  destruct (Akismet env _ _) as [ex|]; [done|]. run.
  destruct (META (request f) !! "REMOTE_ADDR") as [ip|]; [|done]. run.
  unfold check_kwargs.
  rewrite !(dict_get_insert_ne cd "body") by done.
  destruct (comment_check env _) as [ex | [|]]; [done | | ].
  - simpl.
    etrans; [apply (add_error_st "body" [SPAM_MESSAGE] f e (<["body":=Some v]> cd))|].
    rewrite (lookup_insert_eq cd "body" (Some v)), He.
    rewrite bool_decide_eq_true_2 by by eexists.
    by rewrite delete_insert_id.
  - simpl. unfold st, form_with. simpl. by rewrite insert_insert_eq.
Qed.

Lemma clean_fields_app fs1 fs2 s :
  _clean_fields env (fs1 ++ fs2) s =
  match _clean_fields env fs1 s with
  | (inr _, s1) => _clean_fields env fs2 s1
  | (inl ex, s1) => (inl ex, s1)
  end.
Proof.
  revert s. induction fs1 as [| [n fld] fs1 IH]; intros s; [done|].
  simpl. rewrite !bind_run.
  destruct (_clean_field env n fld s) as [[ex | []] s1]; [done | apply IH].
Qed.

Lemma full_clean_bound s :
  is_bound (self s) = true →
  full_clean env s =
    _clean_fields env (fields (cls (self s))) (st (self s) ∅ ∅ (trace s)).
Proof. intros Hb. unfold full_clean. run. by rewrite Hb. Qed.

Lemma fields_NoDup c : NoDup (fields c).*1.
Proof. destruct c; compute_done. Qed.

Lemma base_fields_split :
  base_fields = fields_before_body ++ [("body", CharField None)].
Proof. reflexivity. Qed.

Lemma no_hook_before_body c n :
  n ∈ fields_before_body.*1 → clean_hook env c n = None.
Proof.
  intros Hn. unfold clean_hook. destruct c; try done.
  rewrite bool_decide_eq_false_2; [done|]. intros ->.
  assert ("body" ∉ fields_before_body.*1) by compute_done. done.
Qed.

(** Cleaning an [AkismetContactForm]: the five fields before the body,
    then the body with the check behind it. *)
Lemma full_clean_akismet s :
  cls (self s) = AkismetContactForm → is_bound (self s) = true →
  ∃ e cd,
    fields_done env AkismetContactForm (data (self s)) fields_before_body e cd
    ∧ full_clean env s =
        match text_clean env (CharField None) (data (self s) !! "body") with
        | inl errs => (inr tt, st (self s) (<["body" := errs]> e) cd (trace s))
        | inr v => body_check env (self s) e cd (trace s) v
        end.
Proof.
  intros Hc Hb. rewrite (full_clean_bound _ Hb), Hc. simpl fields.
  rewrite base_fields_split, clean_fields_app.
  destruct (clean_fields_plain fields_before_body [] (self s) ∅ ∅ (trace s))
    as (e & cd & Hrun & Hdone).
  { compute_done. }
  { intros n. apply no_hook_before_body. }
  { apply fields_done_nil. }
  rewrite Hc in Hdone. exists e, cd. split; [done|]. rewrite Hrun.
  destruct (proj1 Hdone "body") as [He Hcd].
  { compute_done. }
  simpl. rewrite bind_run.
  destruct (text_clean env (CharField None) (data (self s) !! "body"))
    as [errs | v] eqn:Hv.
  - rewrite (clean_field_fails "body" (CharField None) _ _ _ _ errs Hv Hcd).
    by rewrite He.
  - rewrite (clean_field_akismet_body _ _ _ _ v Hc Hv He Hcd).
    by destruct (body_check env (self s) e cd (trace s) v) as [[ex | []] s1].
Qed.

(** Cleaning a [ContactForm] or a [ReCaptchaContactForm] always returns. *)
Lemma full_clean_plain s :
  is_bound (self s) = true → cls (self s) ≠ AkismetContactForm →
  ∃ e cd,
    full_clean env s = (inr tt, st (self s) e cd (trace s))
    ∧ fields_done env (cls (self s)) (data (self s)) (fields (cls (self s))) e cd.
Proof.
  intros Hb Hc. rewrite (full_clean_bound _ Hb).
  apply (clean_fields_plain (fields (cls (self s))) [] (self s) ∅ ∅ (trace s)).
  - apply fields_NoDup.
  - intros n _. unfold clean_hook. by destruct (cls (self s)).
  - apply fields_done_nil.
Qed.

(** So on these two classes [is_valid] always answers: a form is valid or
    it is not. *)
Lemma is_valid_answers s :
  cls (self s) ≠ AkismetContactForm → ∃ b s', is_valid env s = (inr b, s').
Proof.
  intros Hc. rewrite is_valid_run.
  destruct (is_bound (self s)) eqn:Hb; [|by eexists _, _].
  destruct (_errors (self s)); [by eexists _, _|].
  destruct (full_clean_plain s Hb Hc) as (e & cd & -> & _). by eexists _, _.
Qed.

(** When cleaning returns, it has dealt with every field of the class,
    and the form is the one it started from with the errors and the
    cleaned data set. *)
Lemma full_clean_returns s s' :
  is_bound (self s) = true →
  full_clean env s = (inr tt, s') →
  ∃ e cd t,
    s' = st (self s) e cd t
    ∧ fields_done env (cls (self s)) (data (self s)) (fields (cls (self s))) e cd.
Proof.
  intros Hb Hrun.
  assert (cls (self s) ≠ AkismetContactForm →
    ∃ e cd t, s' = st (self s) e cd t
      ∧ fields_done env (cls (self s)) (data (self s)) (fields (cls (self s))) e cd)
    as Hplain.
  { intros Hc. destruct (full_clean_plain s Hb Hc) as (e & cd & Hrun' & Hdone).
    rewrite Hrun' in Hrun. injection Hrun as <-. by exists e, cd, (trace s). }
  destruct (cls (self s)) eqn:Hc; [by apply Hplain | | by apply Hplain].
  clear Hplain.
  destruct (full_clean_akismet s Hc Hb) as (e & cd & Hdone & Heq).
  rewrite Heq in Hrun. clear Heq.
  destruct (proj1 Hdone "body") as [He Hcd].
  { compute_done. }
  simpl fields. rewrite base_fields_split.
  destruct (text_clean env (CharField None) (data (self s) !! "body"))
    as [errs | v] eqn:Hv.
  - injection Hrun as <-. eexists _, _, _. split; [done|].
    eapply fields_done_snoc; [done | | |].
    + compute_done.
    + intros m Hm. by rewrite lookup_insert_ne.
    + unfold field_done. simpl. rewrite Hv, lookup_insert_eq. done.
  - unfold body_check in Hrun.
    destruct (Akismet env _ _); [done|].
    destruct (META (request (self s)) !! "REMOTE_ADDR") as [ip|]; [|done].
    destruct (comment_check env _) as [ex | [|]]; [done | |];
      injection Hrun as <-; eexists _, _, _; (split; [done|]);
      (eapply fields_done_snoc;
       [done | compute_done | |]).
    + intros m Hm. by rewrite lookup_insert_ne.
    + unfold field_done. simpl. rewrite Hv, lookup_insert_eq. by right.
    + intros m Hm. by rewrite lookup_insert_ne.
    + unfold field_done. simpl. rewrite Hv, lookup_insert_eq. by left.
Qed.

End Cleaning.

(** ** Calls on a valid form *)

Section Valid.

Variable env : Env.

Lemma text_clean_inr fld value v :
  text_clean env fld value = inr v → v = to_python value.
Proof.
  unfold text_clean. destruct (to_python value); [done|].
  destruct (flat_map _ _); [|done]. by intros [= <-].
Qed.

(** A valid submission: the form is bound and without errors, and each
    field of the class has its cleaned value. *)
Lemma valid_submission_inv c posted files req rl f :
  valid_submission env c posted files req rl f →
  cls f = c ∧ request f = req
  ∧ instance_dict f =
      match rl with
      | Some l => {[ "recipient_list" := AList l ]}
      | None => ∅
      end
  ∧ is_bound f = true ∧ data f = default ∅ posted
  ∧ _errors f = Some ∅
  ∧ ∃ cd, cleaned_data f = Some cd
      ∧ ∀ n fld, (n, fld) ∈ fields c →
          ∃ v, field_clean env n fld (data f) = inr v ∧ cd !! n = Some (Some v).
Proof.
  intros (f0 & t & s1 & Hinit & Hvalid & <-).
  injection Hinit as <-. rewrite is_valid_run in Hvalid. simpl in Hvalid.
  destruct (bool_decide (is_Some posted ∨ is_Some files)) eqn:Hb; [|done].
  destruct (full_clean env _) as [[ex | []] s2] eqn:Hrun; [done|].
  apply full_clean_returns in Hrun as (e & cd & t' & -> & Hdone); [|done].
  simpl in *. injection Hvalid as Hvalid <-. simpl.
  apply bool_decide_eq_true_1 in Hvalid. subst e.
  repeat (split; [done|]). exists cd. split; [done|].
  intros n fld Hn. pose proof (proj2 Hdone n fld Hn) as Hfd.
  unfold field_done in Hfd. rewrite lookup_empty in Hfd.
  destruct (field_clean env n fld (default ∅ posted)) as [errs | v].
  - by destruct Hfd.
  - exists v. split; [done|]. by destruct Hfd as [[_ ?] | (_ & _ & ? & _)].
Qed.

Lemma is_valid_ready s cd : ready s cd → is_valid env s = (inr true, s).
Proof. intros (Hb & He & _). by rewrite is_valid_run, Hb, He. Qed.

Lemma get_cleaned_data_ready s cd : ready s cd → get_cleaned_data s = (inr cd, s).
Proof. intros (_ & _ & Hcd). unfold get_cleaned_data. run. by rewrite Hcd. Qed.

Lemma get_context_ready s cd :
  ready s cd → get_context env s = (inr (context_of env (self s) cd), s).
Proof.
  intros Hr. unfold get_context.
  rewrite (bind_inr _ _ _ _ _ (is_valid_ready _ _ Hr)). simpl.
  by rewrite (bind_inr _ _ _ _ _ (get_cleaned_data_ready _ _ Hr)).
Qed.

Lemma from_email_ready s cd name email :
  ready s cd → cd !! "name" = Some name → cd !! "email" = Some email →
  from_email s = (inr (format_from (to_str name) (to_str email)), s).
Proof.
  intros Hr Hn He. unfold from_email.
  rewrite (bind_inr _ _ _ _ _ (get_cleaned_data_ready _ _ Hr)).
  unfold getitem. rewrite Hn. run.
  rewrite (get_cleaned_data_ready _ _ Hr). by rewrite He.
Qed.

Lemma message_ready s cd :
  ready s cd →
  message env s =
    (inr (render_to_string env (lit "contact_form/contact_form.txt")
            (context_of env (self s) cd) (request (self s))), s).
Proof.
  intros Hr. unfold message.
  by rewrite (bind_inr _ _ _ _ _ (get_context_ready _ _ Hr)).
Qed.

Lemma subject_ready s cd :
  ready s cd →
  subject env s =
    (inr (join_empty (splitlines
            (render_to_string env (lit "contact_form/contact_form_subject.txt")
               (context_of env (self s) cd) (request (self s))))), s).
Proof.
  intros Hr. unfold subject.
  by rewrite (bind_inr _ _ _ _ _ (get_context_ready _ _ Hr)).
Qed.

Lemma getattr_class s name a :
  instance_dict (self s) !! name = None → class_dict env !! name = Some a →
  getattr env name s = (inr a, s).
Proof. intros Hi Hc. unfold getattr. run. by rewrite Hi, Hc. Qed.

Lemma getattr_instance s name a :
  instance_dict (self s) !! name = Some a → getattr env name s = (inr a, s).
Proof. intros Hi. unfold getattr. run. by rewrite Hi. Qed.

(** The later binding of [from_email] in the class body is the one the
    class keeps: the method, not the setting. *)
Lemma class_dict_from_email : class_dict env !! "from_email" = Some (AMethod MFromEmail).
Proof. by vm_compute. Qed.

Lemma class_dict_message : class_dict env !! "message" = Some (AMethod MMessage).
Proof. by vm_compute. Qed.

Lemma class_dict_subject : class_dict env !! "subject" = Some (AMethod MSubject).
Proof. by vm_compute. Qed.

Lemma class_dict_recipient_list :
  class_dict env !! "recipient_list" = Some (AList (snd <$> MANAGERS (settings env))).
Proof. by vm_compute. Qed.

Lemma getattr_recipient_list s rl :
  instance_dict (self s) = instance_dict_of rl →
  getattr env "recipient_list" s = (inr (AList (recipients env rl)), s).
Proof.
  intros Hi. destruct rl as [l|]; simpl in Hi.
  - apply getattr_instance. by rewrite Hi.
  - apply getattr_class; [by rewrite Hi | apply class_dict_recipient_list].
Qed.

Lemma getattr_method s rl name a :
  instance_dict (self s) = instance_dict_of rl →
  name ≠ "recipient_list" → class_dict env !! name = Some a →
  getattr env name s = (inr a, s).
Proof.
  intros Hi Hne Hc. apply getattr_class; [|done]. rewrite Hi.
  destruct rl; simpl; [by rewrite lookup_singleton_ne | done].
Qed.

Lemma get_message_dict_ready s cd name email rl :
  ready s cd → cd !! "name" = Some name → cd !! "email" = Some email →
  instance_dict (self s) = instance_dict_of rl →
  get_message_dict env s =
    (inr (message_dict_of env (self s) cd
            (format_from (to_str name) (to_str email)) rl), s).
Proof.
  intros Hr Hn He Hi. unfold get_message_dict.
  rewrite (bind_inr _ _ _ _ _ (is_valid_ready _ _ Hr)). simpl.
  rewrite (bind_inr _ _ _ _ _
    (getattr_method _ rl "from_email" _ Hi ltac:(done) class_dict_from_email)).
  simpl. rewrite bind_run, (bind_inr _ _ _ _ _ (from_email_ready _ _ _ _ Hr Hn He)).
  simpl.
  rewrite (bind_inr _ _ _ _ _
    (getattr_method _ rl "message" _ Hi ltac:(done) class_dict_message)).
  simpl. rewrite bind_run, (bind_inr _ _ _ _ _ (message_ready _ _ Hr)). simpl.
  rewrite (bind_inr _ _ _ _ _ (getattr_recipient_list _ _ Hi)). simpl.
  rewrite bind_run. simpl.
  rewrite (bind_inr _ _ _ _ _
    (getattr_method _ rl "subject" _ Hi ltac:(done) class_dict_subject)).
  simpl. rewrite bind_run, (bind_inr _ _ _ _ _ (subject_ready _ _ Hr)). done.
Qed.

Lemma save_run fail_silently s md :
  get_message_dict env s = (inr md, s) →
  save env fail_silently s =
    (match send_mail env fail_silently md with
     | Some ex => inl (ServiceError ex)
     | None => inr tt
     end,
     {| self := self s; trace := trace s ++ [SendMail fail_silently md] |}).
Proof.
  intros Hmd. unfold save. rewrite (bind_inr _ _ _ _ _ Hmd). run.
  by destruct (send_mail env fail_silently md).
Qed.

Lemma name_field c : ("name", CharField (Some 100%nat)) ∈ fields c.
Proof. destruct c; simpl; unfold base_fields; set_solver. Qed.

Lemma email_field c : ("email", EmailField (Some 200%nat)) ∈ fields c.
Proof. destruct c; simpl; unfold base_fields; set_solver. Qed.

(** A valid submission is ready, with the cleaned name and email the
    stripped texts that were submitted. *)
Lemma valid_submission_ready c posted files req rl s :
  valid_submission env c posted files req rl (self s) →
  ∃ cd,
    ready s cd
    ∧ instance_dict (self s) = instance_dict_of rl
    ∧ cd !! "name" = Some (Some (to_python (data (self s) !! "name")))
    ∧ cd !! "email" = Some (Some (to_python (data (self s) !! "email"))).
Proof.
  intros H. apply valid_submission_inv in H
    as (Hc & _ & Hi & Hb & _ & He & cd & Hcd & Hfields).
  exists cd. split; [done|]. split; [done|].
  destruct (Hfields _ _ (name_field c)) as (vn & Hvn & ->).
  destruct (Hfields _ _ (email_field c)) as (ve & Hve & ->).
  simpl in Hvn, Hve.
  by rewrite (text_clean_inr _ _ _ Hvn), (text_clean_inr _ _ _ Hve).
Qed.

End Valid.

(** ** The claims about a valid submission *)

Section ValidClaims.

Variable env : Env.

(** C2, as the code has it.  For a valid submission the sender of the
    message dictionary, which is the only sender [send_mail] is given, is
    the text [from_email] builds from the cleaned name and email: the
    method is what the class binds to the name [from_email], whatever
    [DEFAULT_FROM_EMAIL] is. *)
Theorem sender_is_submitter c posted files req rl (s : state) (fail_silently : bool) :
  valid_submission env c posted files req rl (self s) →
  let sender := format_from (to_python (data (self s) !! "name"))
                            (to_python (data (self s) !! "email")) in
  class_dict env !! "from_email" = Some (AMethod MFromEmail)
  ∧ from_email s = (inr sender, s)
  ∧ ∃ md r,
      save env fail_silently s =
        (r, {| self := self s; trace := trace s ++ [SendMail fail_silently md] |})
      ∧ md !! "from_email" = Some (PStr sender).
Proof.
  intros H sender.
  destruct (valid_submission_ready _ _ _ _ _ _ _ H) as (cd & Hr & Hi & Hn & He).
  split; [apply class_dict_from_email|].
  split; [apply (from_email_ready _ _ _ _ Hr Hn He)|].
  pose proof (get_message_dict_ready env _ _ _ _ _ Hr Hn He Hi) as Hmd.
  eexists _, _. split; [apply (save_run env _ _ _ Hmd)|].
  unfold message_dict_of. rewrite !lookup_insert_ne by done.
  by rewrite lookup_insert_eq.
Qed.

(** C3. For a valid submission, whatever the subject template renders,
    [subject] returns that text with its line boundaries removed, so no
    line break is left in it. *)
Theorem subject_single_line c posted files req rl (s : state) :
  valid_submission env c posted files req rl (self s) →
  ∃ ctx,
    get_context env s = (inr ctx, s)
    ∧ let out := render_to_string env (lit "contact_form/contact_form_subject.txt")
                   ctx (request (self s)) in
      subject env s = (inr (List.filter not_linebreak out), s)
      ∧ ∀ ch, ch ∈ List.filter not_linebreak out → is_linebreak ch = false.
Proof.
  intros H.
  destruct (valid_submission_ready _ _ _ _ _ _ _ H) as (cd & Hr & _).
  exists (context_of env (self s) cd).
  split; [apply (get_context_ready _ _ _ Hr)|]. simpl. split.
  - rewrite (subject_ready _ _ _ Hr). by rewrite join_splitlines.
  - intros ch. rewrite <- join_splitlines. apply join_splitlines_no_linebreak.
Qed.

(** C6, as the code has it.  For a valid submission [save] builds the
    message dictionary, calls [send_mail] once with the flag it was given,
    and ends as that call ends: it raises exactly when the call raises.
    With the flag false every failure of the call reaches the caller; with
    the flag true nothing is raised when the call honours the flag. *)
Theorem save_forwards_flag c posted files req rl (s : state) :
  valid_submission env c posted files req rl (self s) →
  ∃ md,
    get_message_dict env s = (inr md, s)
    ∧ (∀ fail_silently,
         save env fail_silently s =
           (match send_mail env fail_silently md with
            | Some ex => inl (ServiceError ex)
            | None => inr tt
            end,
            {| self := self s; trace := trace s ++ [SendMail fail_silently md] |}))
    ∧ (∀ ex, send_mail env false md = Some ex →
             (save env false s).1 = inl (ServiceError ex))
    ∧ (send_mail env true md = None → (save env true s).1 = inr tt).
Proof.
  intros H.
  destruct (valid_submission_ready _ _ _ _ _ _ _ H) as (cd & Hr & Hi & Hn & He).
  pose proof (get_message_dict_ready env _ _ _ _ _ Hr Hn He Hi) as Hmd.
  eexists. split; [exact Hmd|]. split; [|split].
  - intros fs. apply (save_run env _ _ _ Hmd).
  - intros ex Hex. by rewrite (save_run env _ _ _ Hmd), Hex.
  - intros Hok. by rewrite (save_run env _ _ _ Hmd), Hok.
Qed.

(** C7. For a valid submission with name "Jane" and email
    "jane@example.com", [from_email] returns a text that contains both. *)
Theorem from_email_jane c posted files req rl (s : state) :
  valid_submission env c posted files req rl (self s) →
  data (self s) !! "name" = Some (lit "Jane") →
  data (self s) !! "email" = Some (lit "jane@example.com") →
  ∃ sender,
    from_email s = (inr sender, s)
    ∧ sender = [QUOTE] ++ lit "Jane" ++ [QUOTE] ++ lit " <jane@example.com>"
    ∧ contains (lit "Jane") sender = true
    ∧ contains (lit "jane@example.com") sender = true.
Proof.
  intros H Hname Hemail.
  destruct (valid_submission_ready _ _ _ _ _ _ _ H) as (cd & Hr & _ & Hn & He).
  rewrite Hname in Hn. rewrite Hemail in He.
  eexists. split; [apply (from_email_ready _ _ _ _ Hr Hn He)|].
  by vm_compute.
Qed.

(** C8. A form constructed with a recipient list has it as its own
    [recipient_list]; one constructed without has the list of the class,
    the addresses of [settings.MANAGERS].  Once the submission is valid,
    that list is the [recipient_list] of the message dictionary. *)
Theorem recipient_list_override c posted files req rl (f0 : Form) :
  __init__ c posted files (Some req) rl = inr f0 →
  (∀ t, getattr env "recipient_list" {| self := f0; trace := t |} =
          (inr (AList (recipients env rl)), {| self := f0; trace := t |}))
  ∧ (∀ t s1, is_valid env {| self := f0; trace := t |} = (inr true, s1) →
       ∃ md, get_message_dict env s1 = (inr md, s1)
             ∧ md !! "recipient_list" = Some (PList (recipients env rl))).
Proof.
  intros Hinit. split.
  - intros t. apply getattr_recipient_list. injection Hinit as <-. done.
  - intros t s1 Hvalid.
    assert (valid_submission env c posted files req rl (self s1)) as H
      by by exists f0, t, s1.
    destruct (valid_submission_ready _ _ _ _ _ _ _ H) as (cd & Hr & Hi & Hn & He).
    eexists. split; [apply (get_message_dict_ready env _ _ _ _ _ Hr Hn He Hi)|].
    unfold message_dict_of. rewrite lookup_insert_ne by done.
    by rewrite lookup_insert_eq.
Qed.

End ValidClaims.

(** C9. Without a request, construction raises [TypeError], whatever the
    class and the other arguments are. *)
Theorem init_requires_request (c : form_class)
    (posted files : option (gmap string str)) (rl : option (list str)) :
  __init__ c posted files None rl =
    inl (TypeError "Keyword argument 'request' must be supplied").
Proof. reflexivity. Qed.

(** ** The claims about validation *)

Section ValidationClaims.

Variable env : Env.

Lemma field_done_exclusive c d e cd n fld :
  field_done env c d e cd n fld →
  (e !! n = None ∨ cd !! n = None) ∧ (is_Some (e !! n) ∨ is_Some (cd !! n)).
Proof.
  unfold field_done. destruct (field_clean env n fld d).
  - intros [-> ->]. split; [by right | left; by eexists].
  - intros [[-> ->] | (_ & _ & -> & ->)].
    + split; [by left | right; by eexists].
    + split; [by right | left; by eexists].
Qed.

(** C5, as the code has it.  When validation of a form not yet cleaned
    returns, a bound form has its error mapping and its cleaned data, both
    there at once; no name is in both, every field of the class is in one
    of them, and the form is valid exactly when the error mapping is empty.
    An unbound form gets neither. *)
Theorem cleaned_or_errors_per_field (s s' : state) (b : bool) :
  _errors (self s) = None →
  is_valid env s = (inr b, s') →
  if is_bound (self s) then
    ∃ e cd,
      _errors (self s') = Some e ∧ cleaned_data (self s') = Some cd
      ∧ b = bool_decide (e = ∅)
      ∧ (∀ n, e !! n = None ∨ cd !! n = None)
      ∧ (∀ n fld, (n, fld) ∈ fields (cls (self s)) →
           is_Some (e !! n) ∨ is_Some (cd !! n))
  else b = false ∧ s' = s.
Proof.
  intros He. rewrite is_valid_run, He.
  destruct (is_bound (self s)) eqn:Hb; [|by intros [= <- <-]].
  destruct (full_clean env s) as [[ex | []] s1] eqn:Hrun; [done|].
  intros [= <- <-].
  apply full_clean_returns in Hrun as (e & cd & t & -> & Hout & Hin); [|done].
  exists e, cd. simpl. repeat (split; [done|]). split.
  - intros n. destruct (decide (n ∈ (fields (cls (self s))).*1)) as [Hn | Hn].
    + apply list_elem_of_fmap in Hn as ([n' fld] & -> & Hn).
      by apply (field_done_exclusive _ _ _ _ _ _ (Hin _ _ Hn)).
    + left. by apply Hout.
  - intros n fld Hn. by apply (field_done_exclusive _ _ _ _ _ _ (Hin _ _ Hn)).
Qed.

(** C4. Validation of a bound [AkismetContactForm] not yet cleaned.  When
    the body does not clean, no check is made and the form is invalid with
    the messages of the field.  When it cleans to [v] (and the client can
    be built and the request has its address), one check is made, on [v];
    if it answers True the form is invalid, the body has the spam message
    as its errors and no cleaned value; if it answers False the cleaned body
    is [v], the body has no error and the form is valid exactly when no
    other field has one. *)
Theorem akismet_body_check (s s' : state) (r : exn + bool) :
  cls (self s) = AkismetContactForm →
  is_bound (self s) = true →
  _errors (self s) = None →
  is_valid env s = (r, s') →
  ∃ calls,
    trace s' = trace s ++ calls
    ∧ match text_clean env (CharField None) (data (self s) !! "body") with
      | inl errs =>
          calls = [] ∧ r = inr false
          ∧ ∃ e, _errors (self s') = Some e ∧ e !! "body" = Some errs
      | inr v =>
          match Akismet env (AKISMET_API_KEY (settings env))
                            (AKISMET_BLOG_URL (settings env)),
                META (request (self s)) !! "REMOTE_ADDR" with
          | None, Some ip =>
              ∃ kw e cd,
                calls = [CommentCheck kw]
                ∧ user_ip kw = ip ∧ comment_content kw = Some v
                ∧ _errors (self s') = Some e ∧ cleaned_data (self s') = Some cd
                ∧ match comment_check env kw with
                  | inr true =>
                      r = inr false
                      ∧ e !! "body" = Some [SPAM_MESSAGE] ∧ cd !! "body" = None
                  | inr false =>
                      r = inr (bool_decide (e = ∅))
                      ∧ e !! "body" = None ∧ cd !! "body" = Some (Some v)
                  | inl ex => r = inl (ServiceError ex)
                  end
          | _, _ => calls = [] ∧ ∃ ex, r = inl ex
          end
      end.
Proof.
  intros Hc Hb He. rewrite is_valid_run, Hb, He.
  destruct (full_clean_akismet env s Hc Hb) as (e5 & cd5 & Hdone & ->).
  destruct (proj1 Hdone "body") as [He5 Hcd5]; [compute_done|].
  destruct (text_clean env (CharField None) (data (self s) !! "body"))
    as [errs | v] eqn:Hv.
  - intros [= <- <-]. exists []. simpl. rewrite app_nil_r.
    split; [done|]. split; [done|]. split.
    + f_equal. apply bool_decide_eq_false_2, insert_non_empty.
    + eexists. split; [done|]. apply lookup_insert_eq.
  - unfold body_check.
    destruct (Akismet env _ _) as [ex|].
    { intros [= <- <-]. exists []. simpl. rewrite app_nil_r.
      split; [done|]. split; [done|]. by eexists. }
    destruct (META (request (self s)) !! "REMOTE_ADDR") as [ip|].
    2:{ intros [= <- <-]. exists []. simpl. rewrite app_nil_r.
        split; [done|]. split; [done|]. by eexists. }
    set (kw := check_kwargs (self s) cd5 ip v).
    destruct (comment_check env kw) as [ex | [|]] eqn:Hcheck;
      intros [= <- <-]; exists [CommentCheck kw]; (split; [done|]); simpl.
    + exists kw, e5, (<["body" := Some v]> cd5). rewrite Hcheck.
      by repeat split.
    + exists kw, (<["body" := [SPAM_MESSAGE]]> e5), cd5. rewrite Hcheck.
      repeat (split; [done|]). split; [|split; [apply lookup_insert_eq | done]].
      f_equal. apply bool_decide_eq_false_2, insert_non_empty.
    + exists kw, e5, (<["body" := Some v]> cd5). rewrite Hcheck.
      repeat (split; [done|]). apply lookup_insert_eq.
Qed.

End ValidationClaims.

(** ** Concrete runs *)

Example fresh_init c d :
  __init__ c (Some d) None (Some example_request) None = inr (self (fresh c d)).
Proof. reflexivity. Qed.

Example jane_valid_run :
  (is_valid (example_env false) (fresh ContactForm jane)).1 = inr true.
Proof. by vm_compute. Qed.

Example no_address_run :
  (is_valid (example_env false) (fresh ContactForm no_address)).1 = inr false.
Proof. by vm_compute. Qed.

Example unbound_run req :
  ∃ f, __init__ ContactForm None None (Some req) None = inr f
       ∧ is_valid (example_env false) {| self := f; trace := [] |}
         = (inr false, {| self := f; trace := [] |}).
Proof. eexists. split; reflexivity. Qed.

(** Closes [valid_submission] for a submission of [fresh]. *)
Ltac valid_run c d env :=
  exists (self (fresh c d)), [], (validated env (fresh c d));
  split; [reflexivity | split; [vm_compute; reflexivity | reflexivity]].

Lemma not_valid_state_error_run :
  perform_all (example_env false)
    [Dispatch true; RenderContext; BuildMessage; Dispatch false; RenderContext]
    (fresh ContactForm no_address) =
  ([inl (ValueError "Message cannot be sent from invalid contact form");
    inl (ValueError "Cannot generate Context from invalid contact form");
    inl (ValueError "Message cannot be sent from invalid contact form");
    inl (ValueError "Message cannot be sent from invalid contact form");
    inl (ValueError "Cannot generate Context from invalid contact form")],
   validated (example_env false) (fresh ContactForm no_address)).
Proof.
  apply (not_valid_state_error (example_env false) (fresh ContactForm no_address)
           (validated (example_env false) (fresh ContactForm no_address))).
  vm_compute. reflexivity.
Defined.


Lemma sender_is_submitter_run :
  let s := validated (example_env false) (fresh ContactForm jane) in
  let sender := format_from (to_python (data (self s) !! "name"))
                            (to_python (data (self s) !! "email")) in
  class_dict (example_env false) !! "from_email" = Some (AMethod MFromEmail)
  ∧ from_email s = (inr sender, s)
  ∧ ∃ md r,
      save (example_env false) false s =
        (r, {| self := self s; trace := trace s ++ [SendMail false md] |})
      ∧ md !! "from_email" = Some (PStr sender).
Proof.
  apply (sender_is_submitter (example_env false) ContactForm (Some jane) None
           example_request None).
  valid_run ContactForm jane (example_env false).
Defined.

Lemma subject_single_line_run :
  let s := validated (example_env false) (fresh ContactForm jane) in
  ∃ ctx,
    get_context (example_env false) s = (inr ctx, s)
    ∧ let out := render_to_string (example_env false)
                   (lit "contact_form/contact_form_subject.txt") ctx (request (self s)) in
      subject (example_env false) s = (inr (List.filter not_linebreak out), s)
      ∧ ∀ ch, ch ∈ List.filter not_linebreak out → is_linebreak ch = false.
Proof.
  apply (subject_single_line (example_env false) ContactForm (Some jane) None
           example_request None).
  valid_run ContactForm jane (example_env false).
Defined.

Example subject_run :
  (subject (example_env false) (fresh ContactForm jane)).1 = inr (lit "[contact] Hello").
Proof. by vm_compute. Qed.

Lemma save_forwards_flag_run :
  let s := validated (example_env false) (fresh ContactForm jane) in
  ∃ md,
    get_message_dict (example_env false) s = (inr md, s)
    ∧ (∀ fail_silently,
         save (example_env false) fail_silently s =
           (match send_mail (example_env false) fail_silently md with
            | Some ex => inl (ServiceError ex)
            | None => inr tt
            end,
            {| self := self s; trace := trace s ++ [SendMail fail_silently md] |}))
    ∧ (∀ ex, send_mail (example_env false) false md = Some ex →
             (save (example_env false) false s).1 = inl (ServiceError ex))
    ∧ (send_mail (example_env false) true md = None →
       (save (example_env false) true s).1 = inr tt).
Proof.
  apply (save_forwards_flag (example_env false) ContactForm (Some jane) None
           example_request None).
  valid_run ContactForm jane (example_env false).
Defined.

Lemma from_email_jane_run :
  let s := validated (example_env false) (fresh ContactForm jane) in
  ∃ sender,
    from_email s = (inr sender, s)
    ∧ sender = [QUOTE] ++ lit "Jane" ++ [QUOTE] ++ lit " <jane@example.com>"
    ∧ contains (lit "Jane") sender = true
    ∧ contains (lit "jane@example.com") sender = true.
Proof.
  apply (from_email_jane (example_env false) ContactForm (Some jane) None
           example_request None).
  - valid_run ContactForm jane (example_env false).
  - vm_compute. reflexivity.
  - vm_compute. reflexivity.
Defined.

Lemma recipient_list_override_run :
  let f0 := {| cls := ContactForm; request := example_request;
               instance_dict := {[ "recipient_list" := AList [lit "desk@example.org"] ]};
               is_bound := true; data := jane;
               _errors := None; cleaned_data := None |} in
  (∀ t, getattr (example_env false) "recipient_list" {| self := f0; trace := t |} =
          (inr (AList [lit "desk@example.org"]), {| self := f0; trace := t |}))
  ∧ (∀ t s1, is_valid (example_env false) {| self := f0; trace := t |} = (inr true, s1) →
       ∃ md, get_message_dict (example_env false) s1 = (inr md, s1)
             ∧ md !! "recipient_list" = Some (PList [lit "desk@example.org"])).
Proof.
  apply (recipient_list_override (example_env false) ContactForm (Some jane) None
           example_request (Some [lit "desk@example.org"])).
  reflexivity.
Defined.

Example recipient_list_default_run :
  match (get_message_dict (example_env false) (fresh ContactForm jane)).1 with
  | inr md => md !! "recipient_list"
  | inl _ => None
  end = Some (PList [lit "admin@example.com"]).
Proof. by vm_compute. Qed.

Lemma cleaned_or_errors_per_field_run :
  let s := fresh ContactForm no_address in
  let s' := validated (example_env false) s in
  ∃ e cd,
    _errors (self s') = Some e ∧ cleaned_data (self s') = Some cd
    ∧ false = bool_decide (e = ∅)
    ∧ (∀ n, e !! n = None ∨ cd !! n = None)
    ∧ (∀ n fld, (n, fld) ∈ fields (cls (self s)) →
         is_Some (e !! n) ∨ is_Some (cd !! n)).
Proof.
  apply (cleaned_or_errors_per_field (example_env false)
           (fresh ContactForm no_address)
           (validated (example_env false) (fresh ContactForm no_address)) false).
  - reflexivity.
  - vm_compute. reflexivity.
Defined.

Lemma akismet_body_check_run :
  let s := fresh AkismetContactForm jane in
  let s' := validated (example_env true) s in
  ∃ calls,
    trace s' = trace s ++ calls
    ∧ ∃ kw e cd,
        calls = [CommentCheck kw]
        ∧ user_ip kw = lit "192.0.2.7" ∧ comment_content kw = Some (lit "A question.")
        ∧ _errors (self s') = Some e ∧ cleaned_data (self s') = Some cd
        ∧ match comment_check (example_env true) kw with
          | inr true =>
              (inr false : exn + bool) = inr false
              ∧ e !! "body" = Some [SPAM_MESSAGE] ∧ cd !! "body" = None
          | inr false =>
              (inr false : exn + bool) = inr (bool_decide (e = ∅))
              ∧ e !! "body" = None ∧ cd !! "body" = Some (Some (lit "A question."))
          | inl ex => (inr false : exn + bool) = inl (ServiceError ex)
          end.
Proof.
  apply (akismet_body_check (example_env true) (fresh AkismetContactForm jane)
           (validated (example_env true) (fresh AkismetContactForm jane)) (inr false)).
  - reflexivity.
  - reflexivity.
  - reflexivity.
  - vm_compute. reflexivity.
Defined.

Example akismet_ham_run :
  (is_valid (example_env false) (fresh AkismetContactForm jane)).1 = inr true.
Proof. by vm_compute. Qed.

(** ** Where the code departs from the specification *)

(** C1 as stated fails: the three operations validate the form
    themselves, so on a form that was never validated and whose data are
    good they all succeed and the mail is sent; and on an
    [AkismetContactForm] whose request has no [REMOTE_ADDR] the first call
    raises [KeyError], which is not the state error, after which the next
    calls succeed and the mail is sent without any check. *)
Lemma not_validated_yet_succeeds :
  let r := perform_all (example_env false)
             [RenderContext; BuildMessage; Dispatch true]
             (fresh ContactForm jane) in
  let r' := perform_all (example_env true)
              [BuildMessage; BuildMessage; Dispatch true]
              (fresh_at bare_request AkismetContactForm jane) in
  r.1 = [inr tt; inr tt; inr tt]
  ∧ length (mails (trace r.2)) = 1%nat
  ∧ r'.1 = [inl (KeyError "REMOTE_ADDR"); inr tt; inr tt]
  ∧ length (trace r'.2) = 1%nat
  ∧ length (mails (trace r'.2)) = 1%nat.
Proof. by vm_compute. Qed.

(** C2 as stated fails: the sender handed to [send_mail] for Jane's
    submission is built from her name and address; the configured
    [DEFAULT_FROM_EMAIL] is not what the call receives. *)
Lemma default_sender_not_sent :
  let s := validated (example_env false) (fresh ContactForm jane) in
  ∃ md,
    trace (save (example_env false) false s).2 = [SendMail false md]
    ∧ md !! "from_email"
      = Some (PStr ([QUOTE] ++ lit "Jane" ++ [QUOTE] ++ lit " <jane@example.com>"))
    ∧ md !! "from_email"
      ≠ Some (PStr (DEFAULT_FROM_EMAIL (settings (example_env false)))).
Proof.
  eexists. split; [by vm_compute|]. split; [by vm_compute|].
  by vm_compute.
Qed.

(** C5 as stated fails: after validating a submission whose email is not
    an address, the form holds the errors of the email and, at the same
    time, the cleaned name. *)
Lemma cleaned_and_errors_together :
  let r := is_valid (example_env false) (fresh ContactForm no_address) in
  r.1 = inr false
  ∧ _errors (self r.2) ≫= (λ e, e !! "email") = Some [InvalidEmail]
  ∧ cleaned_data (self r.2) ≫= (λ cd, cd !! "name") = Some (Some (lit "Jane")).
Proof. by vm_compute. Qed.

(** C6 as stated fails: the submission is valid, the name holds a line
    break, and [save(fail_silently=True)] raises what [send_mail] raises. *)
Lemma save_silently_raises :
  let r := is_valid (example_env false) (fresh ContactForm two_lines) in
  r.1 = inr true
  ∧ (save (example_env false) true r.2).1 = inl (ServiceError "BadHeaderError").
Proof. by vm_compute. Qed.

(** * Further properties of the module *)

Section Coverage.

Variable env : Env.

(** Validation of a bound form not yet cleaned, when it returns. *)
Lemma is_valid_fresh s b s' :
  is_bound (self s) = true → _errors (self s) = None →
  is_valid env s = (inr b, s') →
  ∃ e cd t,
    s' = st (self s) e cd t ∧ b = bool_decide (e = ∅)
    ∧ fields_done env (cls (self s)) (data (self s)) (fields (cls (self s))) e cd.
Proof.
  intros Hb He. rewrite is_valid_run, Hb, He.
  destruct (full_clean env s) as [[ex | []] s1] eqn:Hrun; [done|].
  intros [= <- <-].
  apply full_clean_returns in Hrun as (e & cd & t & -> & Hdone); [|done].
  by exists e, cd, t.
Qed.

(** On the two classes without a spam check it always returns, and calls
    nothing. *)
Lemma is_valid_plain s :
  is_bound (self s) = true → _errors (self s) = None →
  cls (self s) ≠ AkismetContactForm →
  ∃ e cd,
    is_valid env s = (inr (bool_decide (e = ∅)), st (self s) e cd (trace s))
    ∧ fields_done env (cls (self s)) (data (self s)) (fields (cls (self s))) e cd.
Proof.
  intros Hb He Hc. rewrite is_valid_run, Hb, He.
  destruct (full_clean_plain env s Hb Hc) as (e & cd & -> & Hdone).
  by exists e, cd.
Qed.

Lemma field_done_no_spam c d e cd n fld :
  n ≠ "body" ∨ c ≠ AkismetContactForm →
  field_done env c d e cd n fld →
  match field_clean env n fld d with
  | inl errs => e !! n = Some errs ∧ cd !! n = None
  | inr v => e !! n = None ∧ cd !! n = Some (Some v)
  end.
Proof.
  intros Hne. unfold field_done. destruct (field_clean env n fld d); [done|].
  intros [? | (-> & -> & _)]; [done | by destruct Hne].
Qed.

Lemma within_spec k v :
  within k v = true ↔ v ≠ [] ∧ (length v ≤ k)%nat.
Proof.
  unfold within. rewrite andb_true_iff, negb_true_iff.
  rewrite bool_decide_eq_false, bool_decide_eq_true. done.
Qed.

Lemma max_length_messages k v : max_length_validator k v = ceiling_messages k v.
Proof.
  unfold max_length_validator, ceiling_messages.
  destruct (k <? length v)%nat eqn:E.
  - apply Nat.ltb_lt in E. by rewrite bool_decide_eq_false_2 by lia.
  - apply Nat.ltb_ge in E. by rewrite bool_decide_eq_true_2 by lia.
Qed.

Lemma version_validators_messages v :
  flat_map (λ check, check v) (version_validators env) = version_messages env v.
Proof.
  unfold version_validators, version_messages, null_ok.
  destruct (framework env); [done|]. simpl.
  unfold null_characters_validator. by destruct (has_null v).
Qed.

(** What [run_validators] gathers for a field. *)
Lemma validators_messages fld v :
  flat_map (λ check, check v) (validators env fld) = field_messages env fld v.
Proof.
  destruct fld as [[k |] | [k |] |]; simpl;
    rewrite ?flat_map_app, ?version_validators_messages; simpl;
    rewrite ?max_length_messages, ?app_nil_r; done.
Qed.

(** [Field.clean] on a text field, in closed form. *)
Lemma text_clean_run fld value :
  text_clean env fld value =
    match to_python value with
    | [] => inl [Required]
    | c :: v =>
        match field_messages env fld (c :: v) with
        | [] => inr (c :: v)
        | errs => inl errs
        end
    end.
Proof.
  unfold text_clean. destruct (to_python value) as [| c v]; [done|].
  by rewrite validators_messages.
Qed.

Lemma within_cons k c v : within k (c :: v) = bool_decide (length (c :: v) ≤ k)%nat.
Proof. done. Qed.

(** A [CharField] with a length ceiling cleans exactly the texts that,
    stripped, are not empty, within the ceiling and accepted by the
    validators of the version. *)
Lemma char_field_ok k value :
  cleans (text_clean env (CharField (Some k)) value)
  = within k (to_python value) && null_ok env (to_python value).
Proof.
  rewrite text_clean_run. destruct (to_python value) as [| c v]; [done|].
  rewrite within_cons. unfold field_messages, ceiling_messages, version_messages.
  destruct (bool_decide _); destruct (null_ok env (c :: v)); done.
Qed.

Lemma body_field_ok value :
  cleans (text_clean env (CharField None) value)
  = negb (bool_decide (to_python value = [])) && null_ok env (to_python value).
Proof.
  rewrite text_clean_run. destruct (to_python value) as [| c v]; [done|].
  unfold field_messages, version_messages.
  destruct (null_ok env (c :: v)); done.
Qed.

Lemma email_field_ok value :
  cleans (text_clean env (EmailField (Some 200%nat)) value)
  = within 200 (to_python value) && null_ok env (to_python value)
    && validate_email env (to_python value).
Proof.
  rewrite text_clean_run. destruct (to_python value) as [| c v]; [done|].
  rewrite within_cons. unfold field_messages, ceiling_messages, version_messages.
  destruct (validate_email env (c :: v)); destruct (bool_decide _);
    destruct (null_ok env (c :: v)); done.
Qed.


(** X2. The methods validate first: when validation of a form succeeds,
    calling [get_context], [message], [subject], [get_message_dict] or
    [save] on the form as it was gives what the call gives on the validated
    form, result and state. *)
Theorem methods_validate_first (s s' : state) :
  is_valid env s = (inr true, s') →
  get_context env s = get_context env s'
  ∧ message env s = message env s'
  ∧ subject env s = subject env s'
  ∧ get_message_dict env s = get_message_dict env s'
  ∧ ∀ fail_silently, save env fail_silently s = save env fail_silently s'.
Proof.
  intros H. pose proof (is_valid_again env _ _ _ H) as H'.
  assert (get_context env s = get_context env s') as Hctx.
  { unfold get_context. by rewrite (bind_inr _ _ _ _ _ H), (bind_inr _ _ _ _ _ H'). }
  assert (get_message_dict env s = get_message_dict env s') as Hmd.
  { unfold get_message_dict.
    by rewrite (bind_inr _ _ _ _ _ H), (bind_inr _ _ _ _ _ H'). }
  split; [done|]. split; [|split; [|split; [done|]]].
  - unfold message. simpl. by rewrite !bind_run, Hctx.
  - unfold subject. simpl. by rewrite !bind_run, Hctx.
  - intros fs. unfold save. by rewrite !bind_run, Hmd.
Qed.

(** X3. Validation runs once: after [is_valid] has answered, any number
    of further calls give the same answer and leave the state, with its
    record of calls to the spam check, as it is. *)
Theorem validation_runs_once (s s' : state) (b : bool) (n : nat) :
  is_valid env s = (inr b, s') →
  Nat.iter n (λ s1, (is_valid env s1).2) s' = s'
  ∧ is_valid env (Nat.iter n (λ s1, (is_valid env s1).2) s') = (inr b, s').
Proof.
  intros H. apply is_valid_again in H.
  assert (Nat.iter n (λ s1, (is_valid env s1).2) s' = s') as ->; [|done].
  induction n as [| n IH]; [done|]. simpl. by rewrite IH, H.
Qed.

(** X4. A form constructed without data and without files is not valid,
    and asking does not clean it; its error mapping, once asked for, is
    empty, and it still has no cleaned data.  No call is made. *)
Theorem unbound_form (c : form_class) (req : Request) (rl : option (list str))
    (f : Form) (t : list event) :
  __init__ c None None (Some req) rl = inr f →
  let s := {| self := f; trace := t |} in
  is_valid env s = (inr false, s)
  ∧ (errors env s).1 = inr ∅
  ∧ cleaned_data (self (errors env s).2) = None
  ∧ trace (errors env s).2 = t.
Proof. intros [= <-]. by repeat split. Qed.

(** X5. [from_email] does not validate: on a form just constructed it
    raises [AttributeError], there being no cleaned data, and the form is
    still not cleaned. *)
Theorem from_email_before_validation (c : form_class)
    (posted files : option (gmap string str)) (req : Request)
    (rl : option (list str)) (f : Form) (t : list event) :
  __init__ c posted files (Some req) rl = inr f →
  from_email {| self := f; trace := t |} =
    (inl (AttributeError "cleaned_data"), {| self := f; trace := t |}).
Proof. by intros [= <-]. Qed.

(** X6. After validation [from_email] depends on the name and the email
    alone, whether the form is valid or not: it returns the sender when
    both cleaned, and raises [KeyError] for the first of the two that did
    not. *)
Theorem from_email_after_validation (s s' : state) (b : bool) :
  is_bound (self s) = true → _errors (self s) = None →
  is_valid env s = (inr b, s') →
  from_email s' =
    (match text_clean env (CharField (Some 100%nat)) (data (self s) !! "name"),
           text_clean env (EmailField (Some 200%nat)) (data (self s) !! "email") with
     | inr name, inr email => inr (format_from name email)
     | inl _, _ => inl (KeyError "name")
     | inr _, inl _ => inl (KeyError "email")
     end, s').
Proof.
  intros Hb He H.
  destruct (is_valid_fresh s b s' Hb He H) as (e & cd & t & -> & _ & _ & Hin).
  pose proof (Hin _ _ (name_field (cls (self s)))) as Hn.
  pose proof (Hin _ _ (email_field (cls (self s)))) as Hm.
  apply field_done_no_spam in Hn; [|by left].
  apply field_done_no_spam in Hm; [|by left].
  simpl in Hn, Hm. unfold from_email, get_cleaned_data, getitem. run.
  destruct (text_clean env (CharField (Some 100%nat)) _) as [? | name].
  { destruct Hn as [_ ->]. done. }
  destruct Hn as [_ ->]. run.
  destruct (text_clean env (EmailField (Some 200%nat)) _) as [? | email].
  { destruct Hm as [_ ->]. done. }
  destruct Hm as [_ ->]. done.
Qed.

Lemma base_fields_in_fields c n fld : (n, fld) ∈ base_fields → (n, fld) ∈ fields c.
Proof.
  intros H. destruct c; [done | done |].
  unfold fields. apply elem_of_app. by left.
Qed.

Lemma base_field_clean n fld d :
  (n, fld) ∈ base_fields → field_clean env n fld d = text_clean env fld (d !! n).
Proof.
  unfold base_fields. rewrite !elem_of_cons, elem_of_nil.
  intros [H | [H | [H | [H | [H | [H | []]]]]]]; by simplify_eq.
Qed.

(** The error mapping is empty exactly when every field cleaned; the
    spam message apart, which only the body of an [AkismetContactForm]
    can get. *)
Lemma errors_empty_iff c d fs e cd :
  c ≠ AkismetContactForm ∨ "body" ∉ fs.*1 →
  fields_done env c d fs e cd →
  e = ∅ ↔ Forall (λ nf, cleans (field_clean env nf.1 nf.2 d) = true) fs.
Proof.
  intros Hc [Hout Hin].
  assert (∀ n fld, (n, fld) ∈ fs → n ≠ "body" ∨ c ≠ AkismetContactForm) as Hns.
  { intros n fld Hn. destruct Hc as [Hc | Hc]; [by right | left].
    intros ->. apply Hc. apply list_elem_of_fmap. by exists ("body", fld). }
  rewrite Forall_forall. split.
  - intros -> [n fld] Hn. specialize (Hin n fld Hn).
    apply field_done_no_spam in Hin; [|by eapply Hns]. simpl.
    destruct (field_clean env n fld d); [|done].
    destruct Hin as [Hin _]. by rewrite lookup_empty in Hin.
  - intros Hall. apply map_eq. intros n. rewrite lookup_empty.
    destruct (decide (n ∈ fs.*1)) as [Hn | Hn]; [|by apply Hout].
    apply list_elem_of_fmap in Hn as ([n' fld] & -> & Hn). simpl.
    specialize (Hall _ Hn). specialize (Hin _ _ Hn). simpl in Hall.
    apply field_done_no_spam in Hin; [|by eapply Hns].
    destruct (field_clean env n' fld d); [done | by destruct Hin].
Qed.

Lemma contact_fields_ok_spec d :
  contact_fields_ok env d = true
  ↔ Forall (λ nf, cleans (field_clean env nf.1 nf.2 d) = true) base_fields.
Proof.
  unfold base_fields, contact_fields_ok.
  rewrite !Forall_cons, Forall_nil. simpl.
  rewrite !char_field_ok, email_field_ok, body_field_ok.
  rewrite !andb_true_iff. tauto.
Qed.

(** X7. A bound [ContactForm] is valid exactly when, stripped, the name,
    the last name and the phone number are not empty and within 100
    characters, the email is not empty, within 200 and accepted by the
    email validator, the title is not empty and within 200, the body is
    not empty and, on Django 2.0, none of the six holds a null character.
    Validation always answers and calls nothing. *)
Theorem contact_form_valid_iff (s : state) :
  cls (self s) = ContactForm →
  is_bound (self s) = true → _errors (self s) = None →
  ∃ s', is_valid env s = (inr (contact_fields_ok env (data (self s))), s')
        ∧ trace s' = trace s.
Proof.
  intros Hc Hb He.
  destruct (is_valid_plain s Hb He) as (e & cd & -> & Hdone); [by rewrite Hc|].
  exists (st (self s) e cd (trace s)). split; [|done]. do 2 f_equal.
  rewrite Hc in Hdone. apply errors_empty_iff in Hdone; [|by left].
  apply eq_true_iff_eq. rewrite bool_decide_eq_true, Hdone.
  simpl fields. unfold base_fields, contact_fields_ok.
  rewrite !Forall_cons, Forall_nil. simpl.
  rewrite !char_field_ok, email_field_ok, body_field_ok.
  rewrite !andb_true_iff. tauto.
Qed.

(** X8. After validation of a bound form of any of the three classes,
    for each of the six text fields [ContactForm] declares: one that is
    missing or blank has the message [Required]; one declared with a length
    ceiling, the email among them, whose stripped text is longer has the
    messages of its validators, the message of the ceiling with the
    ceiling and the length found among them.  The form is not valid in
    either case. *)
Theorem missing_or_long_field (s s' : state) (b : bool) (n : string) (fld : field) :
  is_bound (self s) = true → _errors (self s) = None →
  is_valid env s = (inr b, s') →
  (n, fld) ∈ base_fields →
  let v := to_python (data (self s) !! n) in
  ∃ e, _errors (self s') = Some e
    ∧ (v = [] → e !! n = Some [Required] ∧ b = false)
    ∧ (∀ k, max_length_of fld = Some k → (k < length v)%nat →
         e !! n = Some (field_messages env fld v)
         ∧ MaxLength k (length v) ∈ field_messages env fld v
         ∧ b = false).
Proof.
  intros Hb He H Hn v.
  destruct (is_valid_fresh s b s' Hb He H) as (e & cd & t & -> & -> & _ & Hin).
  exists e. split; [done|].
  specialize (Hin n fld (base_fields_in_fields _ _ _ Hn)).
  unfold field_done in Hin. rewrite (base_field_clean _ _ _ Hn) in Hin.
  rewrite text_clean_run in Hin.
  assert (∀ errs, e !! n = Some errs → bool_decide (e = ∅) = false) as Hne.
  { intros errs Herrs. apply bool_decide_eq_false_2. intros ->.
    by rewrite lookup_empty in Herrs. }
  split.
  - intros Hv. subst v. rewrite Hv in Hin. destruct Hin as [Hin _]. eauto.
  - intros k Hk Hlen. subst v.
    destruct (to_python (data (self s) !! n)) as [| ch v'];
      [simpl in Hlen; lia|].
    assert (MaxLength k (length (ch :: v')) ∈ field_messages env fld (ch :: v'))
      as Hmem.
    { unfold field_messages.
      destruct fld as [ml | ml |]; simpl in Hk; [| |done]; subst ml;
        unfold ceiling_messages; rewrite bool_decide_eq_false_2 by lia.
      - apply elem_of_app. left. by left.
      - apply elem_of_app. right. apply elem_of_app. left. by left. }
    destruct (field_messages env fld (ch :: v')) as [| m errs];
      [by apply elem_of_nil in Hmem|].
    destruct Hin as [Hin _]. eauto.
Qed.

(** X9. An email that the validator refuses has the message of the
    validator first and, when it is longer than 200 characters, the message
    of the ceiling after it; the messages of the validators the version of
    the framework adds come last. *)
Theorem refused_email (s s' : state) (b : bool) :
  is_bound (self s) = true → _errors (self s) = None →
  is_valid env s = (inr b, s') →
  let v := to_python (data (self s) !! "email") in
  v ≠ [] → validate_email env v = false →
  ∃ e, _errors (self s') = Some e ∧ b = false
    ∧ e !! "email" =
        Some (InvalidEmail ::
                (if bool_decide (length v ≤ 200)%nat then []
                 else [MaxLength 200 (length v)])
                ++ version_messages env v).
Proof.
  intros Hb He H v Hv Hrefused.
  destruct (is_valid_fresh s b s' Hb He H) as (e & cd & t & -> & -> & _ & Hin).
  exists e. split; [done|].
  specialize (Hin _ _ (email_field (cls (self s)))).
  unfold field_done in Hin. simpl in Hin. rewrite text_clean_run in Hin.
  subst v. destruct (to_python (data (self s) !! "email")) as [| ch v'];
    [done|].
  unfold field_messages in Hin. rewrite Hrefused in Hin.
  simpl in Hin. destruct Hin as [Hin _]. split; [|done].
  apply bool_decide_eq_false_2. intros ->. by rewrite lookup_empty in Hin.
Qed.

(** A valid submission, with the whole of its cleaned data. *)
Lemma valid_submission_done c posted files req rl s :
  valid_submission env c posted files req rl (self s) →
  ∃ cd,
    ready s cd
    ∧ request (self s) = req
    ∧ data (self s) = default ∅ posted
    ∧ fields_done env c (default ∅ posted) (fields c) ∅ cd.
Proof.
  intros (f0 & t & s1 & Hinit & Hvalid & Hs).
  injection Hinit as <-.
  rewrite is_valid_run in Hvalid. simpl in Hvalid.
  destruct (bool_decide (is_Some posted ∨ is_Some files)) eqn:E; [|done].
  destruct (full_clean env _) as [[ex | []] s2] eqn:Hrun; [done|].
  apply full_clean_returns in Hrun as (e & cd & t' & -> & Hdone); [|done].
  simpl in *. injection Hvalid as Hvalid <-.
  apply bool_decide_eq_true_1 in Hvalid. subst e.
  exists cd. unfold st in Hs. simpl in Hs. unfold ready.
  rewrite <- Hs. simpl. by repeat (split; [done|]).
Qed.

Lemma site_not_a_field c : "site" ∉ (fields c).*1.
Proof. destruct c; compute_done. Qed.

(** X10. The context of a valid submission holds the site of the request
    under [site], each field of the form under its name with its cleaned
    value, and nothing else. *)
Theorem context_contents c posted files req rl (s : state) :
  valid_submission env c posted files req rl (self s) →
  ∃ ctx,
    get_context env s = (inr ctx, s)
    ∧ ctx !! "site" = Some (CSite (get_current_site env req))
    ∧ (∀ n fld, (n, fld) ∈ fields c →
         ∃ v, field_clean env n fld (default ∅ posted) = inr v
              ∧ ctx !! n = Some (CVal (Some v)))
    ∧ (∀ k, is_Some (ctx !! k) → k = "site" ∨ k ∈ (fields c).*1).
Proof.
  intros H.
  destruct (valid_submission_done _ _ _ _ _ _ H) as (cd & Hr & Hreq & _ & Hout & Hin).
  exists (context_of env (self s) cd).
  split; [apply (get_context_ready _ _ _ Hr)|]. unfold context_of.
  split; [by rewrite lookup_insert_eq, Hreq|]. split.
  - intros n fld Hn.
    assert (n ≠ "site") as Hne.
    { intros ->. apply (site_not_a_field c).
      apply list_elem_of_fmap. by exists ("site", fld). }
    pose proof (Hin n fld Hn) as Hfd. unfold field_done in Hfd.
    rewrite lookup_empty in Hfd.
    destruct (field_clean env n fld (default ∅ posted)) as [errs | v];
      [by destruct Hfd|].
    exists v. split; [done|].
    rewrite lookup_insert_ne, lookup_fmap by done.
    by destruct Hfd as [[_ ->] | (_ & _ & ? & _)].
  - intros k Hk. destruct (decide (k = "site")) as [-> | Hne]; [by left|].
    right. destruct (decide (k ∈ (fields c).*1)) as [|Hnot]; [done|].
    rewrite lookup_insert_ne, lookup_fmap in Hk by done.
    destruct (Hout k Hnot) as [_ Hcd]. rewrite Hcd in Hk.
    by destruct Hk.
Qed.

(** X11. The message dictionary of a valid submission has the four keys
    [from_email], [message], [recipient_list] and [subject] and no other;
    the three texts are what [from_email], [message] and [subject] return
    on the same form. *)
Theorem descriptor_parts c posted files req rl (s : state) :
  valid_submission env c posted files req rl (self s) →
  ∃ sender body subj md,
    from_email s = (inr sender, s)
    ∧ message env s = (inr body, s)
    ∧ subject env s = (inr subj, s)
    ∧ get_message_dict env s = (inr md, s)
    ∧ md = <["subject" := PStr subj]>
             (<["recipient_list" := PList (recipients env rl)]>
                (<["message" := PStr body]> (<["from_email" := PStr sender]> ∅)))
    ∧ dom md = {[ "from_email"; "message"; "recipient_list"; "subject" ]}.
Proof.
  intros H.
  destruct (valid_submission_ready _ _ _ _ _ _ _ H) as (cd & Hr & Hi & Hn & He).
  eexists _, _, _, _.
  split; [apply (from_email_ready _ _ _ _ Hr Hn He)|].
  split; [apply (message_ready _ _ _ Hr)|].
  split; [apply (subject_ready _ _ _ Hr)|].
  split; [apply (get_message_dict_ready _ _ _ _ _ _ Hr Hn He Hi)|].
  split; [done|].
  unfold message_dict_of. rewrite !dom_insert_L, dom_empty_L. set_solver.
Qed.

Lemma filter_all_kept (l : str) :
  (∀ ch, ch ∈ l → is_linebreak ch = false) → List.filter not_linebreak l = l.
Proof.
  induction l as [| c l IH]; intros H; [done|]. simpl.
  unfold not_linebreak at 1. rewrite (H c) by by left. simpl. f_equal.
  apply IH. intros ch Hch. apply H. by right.
Qed.

(** X12. For a valid submission [message] returns what the body template
    renders against the context of [get_context], line breaks included;
    and a subject rendering that has no line break is returned by
    [subject] as it is. *)
Theorem body_as_rendered c posted files req rl (s : state) :
  valid_submission env c posted files req rl (self s) →
  ∃ ctx,
    get_context env s = (inr ctx, s)
    ∧ message env s =
        (inr (render_to_string env (lit "contact_form/contact_form.txt")
                ctx (request (self s))), s)
    ∧ let out := render_to_string env (lit "contact_form/contact_form_subject.txt")
                   ctx (request (self s)) in
      (∀ ch, ch ∈ out → is_linebreak ch = false) →
      subject env s = (inr out, s).
Proof.
  intros H.
  destruct (valid_submission_ready _ _ _ _ _ _ _ H) as (cd & Hr & _).
  exists (context_of env (self s) cd).
  split; [apply (get_context_ready _ _ _ Hr)|].
  split; [apply (message_ready _ _ _ Hr)|].
  intros out Hout. rewrite (subject_ready _ _ _ Hr).
  by rewrite join_splitlines, filter_all_kept.
Qed.

(** X13. [save] does not use the form up: on a valid submission a second
    call sends the same message dictionary again, and the form is as it
    was. *)
Theorem save_again c posted files req rl (s : state) (first second : bool) :
  valid_submission env c posted files req rl (self s) →
  ∃ md r1 r2 s1 s2,
    save env first s = (r1, s1)
    ∧ save env second s1 = (r2, s2)
    ∧ trace s2 = trace s ++ [SendMail first md; SendMail second md]
    ∧ self s2 = self s.
Proof.
  intros H.
  destruct (valid_submission_ready _ _ _ _ _ _ _ H) as (cd & Hr & Hi & Hn & He).
  pose proof (get_message_dict_ready env _ _ _ _ _ Hr Hn He Hi) as Hmd.
  set (md := message_dict_of env (self s) cd
               (format_from (to_str (Some (to_python (data (self s) !! "name"))))
                  (to_str (Some (to_python (data (self s) !! "email"))))) rl) in *.
  set (s1 := {| self := self s; trace := trace s ++ [SendMail first md] |}).
  assert (ready s1 cd) as Hr1 by done.
  pose proof (get_message_dict_ready env s1 _ _ _ _ Hr1 Hn He Hi) as Hmd1.
  eexists _, _, _, _, _.
  split; [apply (save_run env _ _ _ Hmd)|].
  split; [apply (save_run env _ _ _ Hmd1)|].
  simpl. split; [|done]. by rewrite <- app_assoc.
Qed.

Lemma is_valid_of_full_clean s :
  is_bound (self s) = true → _errors (self s) = None →
  is_valid env s =
    match full_clean env s with
    | (inr _, s1) => (inr (bool_decide (default ∅ (_errors (self s1)) = ∅)), s1)
    | (inl ex, s1) => (inl ex, s1)
    end.
Proof. intros Hb He. by rewrite is_valid_run, Hb, He. Qed.

Lemma before_body_cleaned c d e cd n fld :
  fields_done env c d fields_before_body e cd →
  (n, fld) ∈ fields_before_body →
  dict_get cd n = cleaned_or_none env fld (d !! n).
Proof.
  intros [_ Hin] Hn. specialize (Hin n fld Hn).
  assert (n ≠ "body") as Hne.
  { intros ->. assert ("body" ∉ fields_before_body.*1) as Hnot by compute_done.
    apply Hnot. apply list_elem_of_fmap. by exists ("body", fld). }
  apply field_done_no_spam in Hin; [|by left].
  assert (field_clean env n fld d = text_clean env fld (d !! n)) as Hfc.
  { apply base_field_clean. rewrite base_fields_split. apply elem_of_app. by left. }
  rewrite Hfc in Hin. unfold dict_get, cleaned_or_none.
  destruct (text_clean env fld (d !! n)); by destruct Hin as [_ ->].
Qed.

(** X14. The check of an [AkismetContactForm] is made whenever the body
    cleans, whether the other fields did or not.  It gets the address and
    the agent of the request, the cleaned name and email, [None] for the one
    that did not clean, the cleaned body, and the type [contact-form]. *)
Theorem akismet_check_arguments (s : state) (v ip : str) :
  cls (self s) = AkismetContactForm →
  is_bound (self s) = true → _errors (self s) = None →
  text_clean env (CharField None) (data (self s) !! "body") = inr v →
  Akismet env (AKISMET_API_KEY (settings env)) (AKISMET_BLOG_URL (settings env)) = None →
  META (request (self s)) !! "REMOTE_ADDR" = Some ip →
  ∃ r s',
    is_valid env s = (r, s')
    ∧ trace s' = trace s ++
        [CommentCheck
           {| user_ip := ip;
              user_agent := META (request (self s)) !! "HTTP_USER_AGENT";
              comment_author :=
                cleaned_or_none env (CharField (Some 100%nat)) (data (self s) !! "name");
              comment_author_email :=
                cleaned_or_none env (EmailField (Some 200%nat)) (data (self s) !! "email");
              comment_content := Some v;
              comment_type := lit "contact-form" |}].
Proof.
  intros Hc Hb He Hv Hclient Hip.
  rewrite (is_valid_of_full_clean s Hb He).
  destruct (full_clean_akismet env s Hc Hb) as (e5 & cd5 & Hdone & ->).
  rewrite Hv. unfold body_check. rewrite Hclient, Hip. unfold check_kwargs.
  rewrite (before_body_cleaned _ _ _ _ "name" (CharField (Some 100%nat)) Hdone)
    by compute_done.
  rewrite (before_body_cleaned _ _ _ _ "email" (EmailField (Some 200%nat)) Hdone)
    by compute_done.
  destruct (comment_check env _) as [ex | [|]]; by eexists _, _.
Qed.

(** X15. When the Akismet client cannot be built, validation of an
    [AkismetContactForm] whose body cleans raises the error of the client,
    which is not turned into an error of the form; when the body does not
    clean the client is not asked for and validation answers False.  No
    check is made in either case. *)
Theorem akismet_client_failure (s : state) (ex : string) :
  cls (self s) = AkismetContactForm →
  is_bound (self s) = true → _errors (self s) = None →
  Akismet env (AKISMET_API_KEY (settings env)) (AKISMET_BLOG_URL (settings env)) = Some ex →
  ∃ s',
    is_valid env s =
      (if cleans (text_clean env (CharField None) (data (self s) !! "body"))
       then inl (ServiceError ex) else inr false, s')
    ∧ trace s' = trace s.
Proof.
  intros Hc Hb He Hclient.
  rewrite (is_valid_of_full_clean s Hb He).
  destruct (full_clean_akismet env s Hc Hb) as (e5 & cd5 & Hdone & ->).
  destruct (text_clean env (CharField None) (data (self s) !! "body")) as [errs | v].
  - exists (st (self s) (<["body" := errs]> e5) cd5 (trace s)).
    simpl. split; [|done]. do 2 f_equal.
    apply bool_decide_eq_false_2, insert_non_empty.
  - unfold body_check. rewrite Hclient. by eexists.
Qed.

(** X16. An [AkismetContactForm] whose six fields clean, asked on a
    request without [REMOTE_ADDR]: the first [is_valid] raises [KeyError]
    before any check is made, and leaves the error mapping set and empty,
    so that the next [is_valid] answers True and the message dictionary is
    built, no check having been made. *)
Theorem akismet_missing_address (s : state) (rl : option (list str)) :
  cls (self s) = AkismetContactForm →
  is_bound (self s) = true → _errors (self s) = None →
  instance_dict (self s) = instance_dict_of rl →
  contact_fields_ok env (data (self s)) = true →
  Akismet env (AKISMET_API_KEY (settings env)) (AKISMET_BLOG_URL (settings env)) = None →
  META (request (self s)) !! "REMOTE_ADDR" = None →
  ∃ s1 md,
    is_valid env s = (inl (KeyError "REMOTE_ADDR"), s1)
    ∧ trace s1 = trace s
    ∧ is_valid env s1 = (inr true, s1)
    ∧ get_message_dict env s1 = (inr md, s1).
Proof.
  intros Hc Hb He Hi Hok Hclient Hip.
  rewrite (is_valid_of_full_clean s Hb He).
  destruct (full_clean_akismet env s Hc Hb) as (e5 & cd5 & Hdone & ->).
  apply contact_fields_ok_spec in Hok.
  rewrite base_fields_split, Forall_app in Hok. destruct Hok as [Hfive Hbody].
  rewrite Forall_singleton in Hbody.
  change (cleans (text_clean env (CharField None) (data (self s) !! "body")) = true)
    in Hbody.
  assert (e5 = ∅) as ->.
  { by apply (errors_empty_iff AkismetContactForm (data (self s))
                fields_before_body e5 cd5); [right; compute_done | |]. }
  rewrite Forall_forall in Hfive.
  pose proof (Hfive ("name", CharField (Some 100%nat)) ltac:(compute_done))
    as Hname.
  pose proof (Hfive ("email", EmailField (Some 200%nat)) ltac:(compute_done))
    as Hemail.
  change (cleans (text_clean env (CharField (Some 100%nat))
                    (data (self s) !! "name")) = true) in Hname.
  change (cleans (text_clean env (EmailField (Some 200%nat))
                    (data (self s) !! "email")) = true) in Hemail.
  destruct (text_clean env (CharField None) (data (self s) !! "body"))
    as [errs | v]; [done|].
  unfold body_check. rewrite Hclient, Hip.
  set (cd := <["body" := Some v]> cd5).
  assert (ready (st (self s) ∅ cd (trace s)) cd) as Hr by done.
  assert (∀ n fld, (n, fld) ∈ fields_before_body →
            cleans (text_clean env fld (data (self s) !! n)) = true →
            ∃ w, cd !! n = Some (Some w)) as Hcd.
  { intros n fld Hn Hcl.
    pose proof (before_body_cleaned _ _ _ _ _ _ Hdone Hn) as Hget.
    assert (n ≠ "body") as Hne.
    { intros ->. assert ("body" ∉ fields_before_body.*1) as Hnot by compute_done.
      apply Hnot. apply list_elem_of_fmap. by exists ("body", fld). }
    unfold cd. rewrite lookup_insert_ne by done.
    unfold cleaned_or_none in Hget.
    destruct (text_clean env fld (data (self s) !! n)) as [| w]; [done|].
    exists w. unfold dict_get in Hget.
    destruct (cd5 !! n) as [[w' |] |]; simpl in Hget; by simplify_eq. }
  destruct (Hcd "name" (CharField (Some 100%nat)) ltac:(compute_done) Hname) as (wn & Hwn).
  destruct (Hcd "email" (EmailField (Some 200%nat)) ltac:(compute_done) Hemail) as (we & Hwe).
  eexists _, _. split; [done|]. split; [done|].
  split; [apply (is_valid_ready env _ _ Hr)|].
  apply (get_message_dict_ready env _ _ _ _ _ Hr Hwn Hwe Hi).
Qed.

(** X17. A bound [ReCaptchaContactForm] is valid exactly when the six
    fields of [ContactForm] clean and the captcha field accepts the
    submission; when it refuses, its messages are the errors of
    [captcha]. *)
Theorem recaptcha_form_valid_iff (s : state) :
  cls (self s) = ReCaptchaContactForm →
  is_bound (self s) = true → _errors (self s) = None →
  ∃ s' e,
    is_valid env s =
      (inr (contact_fields_ok env (data (self s))
            && cleans (recaptcha_clean env (data (self s)))), s')
    ∧ trace s' = trace s
    ∧ _errors (self s') = Some e
    ∧ ∀ errs, recaptcha_clean env (data (self s)) = inl errs →
              e !! "captcha" = Some errs.
Proof.
  intros Hc Hb He.
  destruct (is_valid_plain s Hb He) as (e & cd & -> & Hdone); [by rewrite Hc|].
  exists (st (self s) e cd (trace s)), e. rewrite Hc in Hdone.
  split; [|split; [done | split; [done|]]].
  - do 2 f_equal. apply errors_empty_iff in Hdone; [|by left].
    apply eq_true_iff_eq. rewrite bool_decide_eq_true, Hdone.
    simpl fields. unfold base_fields, contact_fields_ok. simpl app.
    rewrite !Forall_cons, Forall_nil. simpl.
    rewrite !char_field_ok, email_field_ok, body_field_ok.
    rewrite !andb_true_iff. tauto.
  - intros errs Herrs.
    assert (("captcha", ReCaptchaField) ∈ fields ReCaptchaContactForm) as Hin
      by compute_done.
    apply (proj2 Hdone) in Hin. unfold field_done in Hin. simpl in Hin.
    rewrite Herrs in Hin. by destruct Hin.
Qed.

End Coverage.


(** ** Concrete runs of the further properties *)


Lemma methods_validate_first_run :
  let s := fresh ContactForm jane in
  let s' := validated (example_env false) s in
  get_context (example_env false) s = get_context (example_env false) s'
  ∧ message (example_env false) s = message (example_env false) s'
  ∧ subject (example_env false) s = subject (example_env false) s'
  ∧ get_message_dict (example_env false) s = get_message_dict (example_env false) s'
  ∧ ∀ fail_silently,
      save (example_env false) fail_silently s
      = save (example_env false) fail_silently s'.
Proof.
  apply (methods_validate_first (example_env false)).
  vm_compute. reflexivity.
Defined.

Lemma validation_runs_once_run :
  let s' := validated (example_env true) (fresh AkismetContactForm jane) in
  Nat.iter 3 (λ s1, (is_valid (example_env true) s1).2) s' = s'
  ∧ is_valid (example_env true)
      (Nat.iter 3 (λ s1, (is_valid (example_env true) s1).2) s') = (inr false, s').
Proof.
  apply (validation_runs_once (example_env true) (fresh AkismetContactForm jane)).
  vm_compute. reflexivity.
Defined.

Lemma unbound_form_run :
  let s := {| self := {| cls := AkismetContactForm; request := example_request;
                         instance_dict := ∅; is_bound := false; data := ∅;
                         _errors := None; cleaned_data := None |};
              trace := [] |} in
  is_valid (example_env true) s = (inr false, s)
  ∧ (errors (example_env true) s).1 = inr ∅
  ∧ cleaned_data (self (errors (example_env true) s).2) = None
  ∧ trace (errors (example_env true) s).2 = [].
Proof.
  apply (unbound_form (example_env true) AkismetContactForm example_request None).
  reflexivity.
Defined.

Lemma from_email_before_validation_run :
  from_email (fresh ContactForm jane) =
    (inl (AttributeError "cleaned_data"), fresh ContactForm jane).
Proof.
  apply (from_email_before_validation ContactForm (Some jane) None
           example_request None).
  reflexivity.
Defined.

Lemma from_email_after_validation_run :
  let s := fresh ContactForm blank_title in
  let s' := validated (example_env false) s in
  from_email s' =
    (match text_clean (example_env false) (CharField (Some 100%nat))
             (data (self s) !! "name"),
           text_clean (example_env false) (EmailField (Some 200%nat))
             (data (self s) !! "email") with
     | inr name, inr email => inr (format_from name email)
     | inl _, _ => inl (KeyError "name")
     | inr _, inl _ => inl (KeyError "email")
     end, s').
Proof.
  apply (from_email_after_validation (example_env false)
           (fresh ContactForm blank_title) _ false).
  - reflexivity.
  - reflexivity.
  - vm_compute. reflexivity.
Defined.

Example from_email_invalid_form_run :
  let r := is_valid (example_env false) (fresh ContactForm blank_title) in
  r.1 = inr false
  ∧ (from_email r.2).1 = inr ([QUOTE] ++ lit "Jane" ++ [QUOTE] ++ lit " <jane@example.com>").
Proof. by vm_compute. Qed.

Lemma contact_form_valid_iff_run :
  ∃ s', is_valid (example_env false) (fresh ContactForm jane)
        = (inr (contact_fields_ok (example_env false) jane), s')
        ∧ trace s' = [].
Proof.
  apply (contact_form_valid_iff (example_env false) (fresh ContactForm jane));
    reflexivity.
Defined.

Lemma missing_or_long_field_run :
  let s := fresh ContactForm long_email in
  let s' := validated (example_env false) s in
  let v := to_python (data (self s) !! "email") in
  ∃ e, _errors (self s') = Some e
    ∧ (v = [] → e !! "email" = Some [Required] ∧ false = false)
    ∧ (∀ k, max_length_of (EmailField (Some 200%nat)) = Some k → (k < length v)%nat →
         e !! "email" = Some (field_messages (example_env false) (EmailField (Some 200%nat)) v)
         ∧ MaxLength k (length v) ∈ field_messages (example_env false) (EmailField (Some 200%nat)) v
         ∧ false = false).
Proof.
  apply (missing_or_long_field (example_env false) (fresh ContactForm long_email)
           _ false "email" (EmailField (Some 200%nat))).
  - reflexivity.
  - reflexivity.
  - vm_compute. reflexivity.
  - compute_done.
Defined.

Example long_email_run :
  _errors (self (validated (example_env false) (fresh ContactForm long_email)))
    ≫= (λ e, e !! "email") = Some [MaxLength 200 201].
Proof. by vm_compute. Qed.

Example null_in_name_run :
  (is_valid (example_env false) (fresh ContactForm null_in_name)).1 = inr true
  ∧ (is_valid django2_env (fresh ContactForm null_in_name)).1 = inr false
  ∧ _errors (self (validated django2_env (fresh ContactForm null_in_name)))
      ≫= (λ e, e !! "name") = Some [NullCharacters]
  ∧ contact_fields_ok django2_env null_in_name = false.
Proof. by vm_compute. Qed.

Example long_name_run :
  _errors (self (validated (example_env false) (fresh ContactForm long_name)))
    ≫= (λ e, e !! "name") = Some [MaxLength 100 101].
Proof. by vm_compute. Qed.

Lemma refused_email_run :
  let s := fresh ContactForm no_address in
  let s' := validated (example_env false) s in
  ∃ e, _errors (self s') = Some e ∧ false = false
    ∧ e !! "email" = Some [InvalidEmail].
Proof.
  apply (refused_email (example_env false) (fresh ContactForm no_address) _ false).
  - reflexivity.
  - reflexivity.
  - vm_compute. reflexivity.
  - vm_compute. discriminate.
  - vm_compute. reflexivity.
Defined.

Lemma context_contents_run :
  let s := validated (example_env false) (fresh ContactForm jane) in
  ∃ ctx,
    get_context (example_env false) s = (inr ctx, s)
    ∧ ctx !! "site"
      = Some (CSite (get_current_site (example_env false) example_request))
    ∧ (∀ n fld, (n, fld) ∈ fields ContactForm →
         ∃ v, field_clean (example_env false) n fld jane = inr v
              ∧ ctx !! n = Some (CVal (Some v)))
    ∧ (∀ k, is_Some (ctx !! k) → k = "site" ∨ k ∈ (fields ContactForm).*1).
Proof.
  apply (context_contents (example_env false) ContactForm (Some jane) None
           example_request None).
  valid_run ContactForm jane (example_env false).
Defined.

Lemma descriptor_parts_run :
  let s := validated (example_env false) (fresh ContactForm jane) in
  ∃ sender body subj md,
    from_email s = (inr sender, s)
    ∧ message (example_env false) s = (inr body, s)
    ∧ subject (example_env false) s = (inr subj, s)
    ∧ get_message_dict (example_env false) s = (inr md, s)
    ∧ md = <["subject" := PStr subj]>
             (<["recipient_list" := PList (recipients (example_env false) None)]>
                (<["message" := PStr body]> (<["from_email" := PStr sender]> ∅)))
    ∧ dom md = {[ "from_email"; "message"; "recipient_list"; "subject" ]}.
Proof.
  apply (descriptor_parts (example_env false) ContactForm (Some jane) None
           example_request None).
  valid_run ContactForm jane (example_env false).
Defined.

Lemma body_as_rendered_run :
  let s := validated (example_env false) (fresh ContactForm jane) in
  ∃ ctx,
    get_context (example_env false) s = (inr ctx, s)
    ∧ message (example_env false) s =
        (inr (render_to_string (example_env false)
                (lit "contact_form/contact_form.txt") ctx (request (self s))), s)
    ∧ let out := render_to_string (example_env false)
                   (lit "contact_form/contact_form_subject.txt")
                   ctx (request (self s)) in
      (∀ ch, ch ∈ out → is_linebreak ch = false) →
      subject (example_env false) s = (inr out, s).
Proof.
  apply (body_as_rendered (example_env false) ContactForm (Some jane) None
           example_request None).
  valid_run ContactForm jane (example_env false).
Defined.

Example message_keeps_line_break_run :
  (message (example_env false) (fresh ContactForm jane)).1
  = inr (lit "[contact] Hello" ++ [LF]).
Proof. by vm_compute. Qed.

Lemma save_again_run :
  let s := validated (example_env false) (fresh ContactForm jane) in
  ∃ md r1 r2 s1 s2,
    save (example_env false) true s = (r1, s1)
    ∧ save (example_env false) false s1 = (r2, s2)
    ∧ trace s2 = trace s ++ [SendMail true md; SendMail false md]
    ∧ self s2 = self s.
Proof.
  apply (save_again (example_env false) ContactForm (Some jane) None
           example_request None).
  valid_run ContactForm jane (example_env false).
Defined.

Lemma akismet_check_arguments_run :
  let s := fresh AkismetContactForm no_address in
  ∃ r s',
    is_valid (example_env false) s = (r, s')
    ∧ trace s' = trace s ++
        [CommentCheck
           {| user_ip := lit "192.0.2.7";
              user_agent := META (request (self s)) !! "HTTP_USER_AGENT";
              comment_author :=
                cleaned_or_none (example_env false) (CharField (Some 100%nat))
                  (data (self s) !! "name");
              comment_author_email :=
                cleaned_or_none (example_env false) (EmailField (Some 200%nat))
                  (data (self s) !! "email");
              comment_content := Some (lit "A question.");
              comment_type := lit "contact-form" |}].
Proof.
  apply (akismet_check_arguments (example_env false)
           (fresh AkismetContactForm no_address)).
  - reflexivity.
  - reflexivity.
  - reflexivity.
  - vm_compute. reflexivity.
  - reflexivity.
  - vm_compute. reflexivity.
Defined.

Example check_without_email_run :
  trace (validated (example_env false) (fresh AkismetContactForm no_address))
  = [CommentCheck
       {| user_ip := lit "192.0.2.7"; user_agent := None;
          comment_author := Some (lit "Jane"); comment_author_email := None;
          comment_content := Some (lit "A question.");
          comment_type := lit "contact-form" |}].
Proof. by vm_compute. Qed.

Lemma akismet_client_failure_run :
  let s := fresh AkismetContactForm jane in
  ∃ s',
    is_valid no_client_env s =
      (if cleans (text_clean no_client_env (CharField None) (data (self s) !! "body"))
       then inl (ServiceError "ConfigurationError") else inr false, s')
    ∧ trace s' = trace s.
Proof.
  apply (akismet_client_failure no_client_env (fresh AkismetContactForm jane));
    reflexivity.
Defined.

Lemma akismet_missing_address_run :
  let s := fresh_at bare_request AkismetContactForm jane in
  ∃ s1 md,
    is_valid (example_env true) s = (inl (KeyError "REMOTE_ADDR"), s1)
    ∧ trace s1 = trace s
    ∧ is_valid (example_env true) s1 = (inr true, s1)
    ∧ get_message_dict (example_env true) s1 = (inr md, s1).
Proof.
  apply (akismet_missing_address (example_env true)
           (fresh_at bare_request AkismetContactForm jane) None).
  - reflexivity.
  - reflexivity.
  - reflexivity.
  - reflexivity.
  - vm_compute. reflexivity.
  - reflexivity.
  - reflexivity.
Defined.

Lemma recaptcha_form_valid_iff_run :
  let s := fresh ReCaptchaContactForm with_captcha in
  ∃ s' e,
    is_valid (example_env false) s =
      (inr (contact_fields_ok (example_env false) (data (self s))
            && cleans (recaptcha_clean (example_env false) (data (self s)))), s')
    ∧ trace s' = trace s
    ∧ _errors (self s') = Some e
    ∧ ∀ errs, recaptcha_clean (example_env false) (data (self s)) = inl errs →
              e !! "captcha" = Some errs.
Proof.
  apply (recaptcha_form_valid_iff (example_env false)
           (fresh ReCaptchaContactForm with_captcha));
    reflexivity.
Defined.

Example recaptcha_missing_run :
  let r := is_valid (example_env false) (fresh ReCaptchaContactForm jane) in
  r.1 = inr false
  ∧ _errors (self r.2) ≫= (λ e, e !! "captcha") = Some [Required].
Proof. by vm_compute. Qed.
